(** * Conditional text generation driver (Baseline/gpt2/run_gen.py)

    A shallow embedding of the generation script: the length resolver
    [adjust_length_to_model], the Python string operations its two drivers
    rely on, the startup sequence of [main], the batch driver [file_gen] and
    the interactive driver [prompt_gen].

    The tokenizer, the language model and the machine the script runs on
    are external collaborators; they are records of functions here
    ([Tokenizer], [Model], [Env]).  Python [str] values are modelled by
    [string], one [ascii] per character (code points below 256); Python
    [int] values by [Z]; Python [float] values by binary64 floats. *)

From Stdlib Require Import ZArith String Ascii List Bool Lia PrimFloat.
Import ListNotations.

Local Open Scope string_scope.
Local Open Scope Z_scope.

(* ================================================================== *)
(** * The length resolver *)
(* ================================================================== *)

(** [MAX_LENGTH = int(10000)  # Hardcoded max length to avoid infinite loop] *)
Definition MAX_LENGTH : Z := 10000.

(** [adjust_length_to_model(length, max_sequence_length)], an
    [if / elif / elif] chain that falls through to [return length]. *)
Definition adjust_length_to_model (length max_sequence_length : Z) : Z :=
  if (length <? 0) && (max_sequence_length >? 0) then max_sequence_length
  else if (0 <? max_sequence_length) && (max_sequence_length <? length)
       then max_sequence_length
  else if length <? 0 then MAX_LENGTH
  else length.

(** The same chain read as an ordered rule list: the first rule whose guard
    holds decides.  Used to state that the order of the cases is the one the
    resolver applies. *)
Inductive length_rule : Type :=
| RuleModelDefault   (* requested < 0 and capacity > 0 *)
| RuleModelCap       (* 0 < capacity < requested *)
| RuleSafetyBound    (* requested < 0 *)
| RuleUnchanged.

Definition rule_guard (r : length_rule) (requested capacity : Z) : bool :=
  match r with
  | RuleModelDefault => (requested <? 0) && (capacity >? 0)
  | RuleModelCap     => (0 <? capacity) && (capacity <? requested)
  | RuleSafetyBound  => requested <? 0
  | RuleUnchanged    => true
  end.

Definition rule_value (r : length_rule) (requested capacity : Z) : Z :=
  match r with
  | RuleModelDefault => capacity
  | RuleModelCap     => capacity
  | RuleSafetyBound  => MAX_LENGTH
  | RuleUnchanged    => requested
  end.

Definition rules_in_order : list length_rule :=
  [RuleModelDefault; RuleModelCap; RuleSafetyBound; RuleUnchanged].

Fixpoint first_match (rs : list length_rule) (requested capacity : Z)
  : option Z :=
  match rs with
  | [] => None
  | r :: rs' =>
      if rule_guard r requested capacity
      then Some (rule_value r requested capacity)
      else first_match rs' requested capacity
  end.

(* ================================================================== *)
(** * Python string operations used by the script *)
(* ================================================================== *)

Module PyStr.

Definition chr (n : nat) : ascii := ascii_of_nat n.
Definition ord (c : ascii) : nat := nat_of_ascii c.

Definition LF : string := String (chr 10) "".
Definition TAB : string := String (chr 9) "".

(** [str.isspace] on one character, for code points below 256. *)
Definition is_space (c : ascii) : bool :=
  let n := ord c in
  ((9 <=? n) && (n <=? 13) || (28 <=? n) && (n <=? 32)
   || (n =? 133) || (n =? 160))%nat.

(** [s.startswith(p)] *)
Definition startswith (p s : string) : bool := String.prefix p s.

(** [s.find(sub)]: the lowest index where [sub] occurs, [-1] when it does
    not occur. *)
Fixpoint find_from (sub s : string) (i : Z) : Z :=
  if startswith sub s then i
  else match s with
       | EmptyString => -1
       | String _ s' => find_from sub s' (i + 1)
       end.

Definition find (s sub : string) : Z := find_from sub s 0.

(** [sub in s] *)
Definition contains (s sub : string) : bool := 0 <=? find s sub.

(** [s.replace(old, new)] for a non-empty [old]: a single left-to-right
    pass over non-overlapping occurrences.  [skip] counts the characters of
    the occurrence just replaced that are still to be passed over. *)
Fixpoint replace_go (old new : string) (skip : nat) (s : string) : string :=
  match s with
  | EmptyString => EmptyString
  | String c s' =>
      match skip with
      | S k => replace_go old new k s'
      | O =>
          if startswith old s
          then new ++ replace_go old new (Nat.pred (String.length old)) s'
          else String c (replace_go old new O s')
      end
  end.

(** With an empty [old], Python inserts [new] before every character and
    at the end. *)
Fixpoint intersperse (new s : string) : string :=
  match s with
  | EmptyString => new
  | String c s' => new ++ String c (intersperse new s')
  end.

Definition replace (s old new : string) : string :=
  match old with
  | EmptyString => intersperse new s
  | String _ _ => replace_go old new O s
  end.

(** Index normalisation of a slice bound: a negative bound counts from the
    end, and the result is clamped to [0 .. len]. *)
Definition clamp_index (len i : Z) : Z :=
  if i <? 0 then Z.max 0 (i + len) else Z.min i len.

(** [s[start:stop]], [None] standing for an omitted bound. *)
Definition slice (s : string) (start stop : option Z) : string :=
  let len := Z.of_nat (String.length s) in
  let lo := match start with None => 0 | Some i => clamp_index len i end in
  let hi := match stop with None => len | Some j => clamp_index len j end in
  substring (Z.to_nat lo) (Z.to_nat (hi - lo)) s.

(** [s.lstrip()], [s.rstrip()], [s.strip()] *)
Fixpoint lstrip (s : string) : string :=
  match s with
  | EmptyString => EmptyString
  | String c s' => if is_space c then lstrip s' else s
  end.

Fixpoint rstrip (s : string) : string :=
  match s with
  | EmptyString => EmptyString
  | String c s' =>
      match rstrip s' with
      | EmptyString => if is_space c then EmptyString else String c EmptyString
      | r => String c r
      end
  end.

Definition strip (s : string) : string := rstrip (lstrip s).

(** [s.split()]: the maximal runs of non-whitespace characters.  [cur] is
    the run being read, in reverse. *)
Definition rev_string (l : list ascii) : string :=
  string_of_list_ascii (rev l).

Definition flush (cur : list ascii) (rest : list string) : list string :=
  match cur with
  | [] => rest
  | _ :: _ => rev_string cur :: rest
  end.

Fixpoint split_go (cur : list ascii) (s : string) : list string :=
  match s with
  | EmptyString => flush cur []
  | String c s' =>
      if is_space c then flush cur (split_go [] s')
      else split_go (c :: cur) s'
  end.

Definition split (s : string) : list string := split_go [] s.

(** [sep.join(parts)] *)
Fixpoint join (sep : string) (parts : list string) : string :=
  match parts with
  | [] => EmptyString
  | [p] => p
  | p :: ps => p ++ sep ++ join sep ps
  end.

(** [s.lower()], for code points below 256: the ASCII capitals and the
    Latin-1 capitals (all of 192..222 but the multiplication sign 215). *)
Definition lower_char (c : ascii) : ascii :=
  let n := ord c in
  if ((65 <=? n) && (n <=? 90)
      || (192 <=? n) && (n <=? 222) && negb (n =? 215))%nat
  then chr (n + 32) else c.

Fixpoint lower (s : string) : string :=
  match s with
  | EmptyString => EmptyString
  | String c s' => String (lower_char c) (lower s')
  end.

(** Truthiness of an optional string: [None] and [""] are false. *)
Definition truthy (o : option string) : bool :=
  match o with
  | Some (String _ _) => true
  | _ => false
  end.

End PyStr.

(* ================================================================== *)
(** * Constants and tables of the script *)
(* ================================================================== *)

Inductive model_class : Type :=
| GPT2LMHeadModel | CTRLLMHeadModel | OpenAIGPTLMHeadModel
| XLNetLMHeadModel | TransfoXLLMHeadModel | XLMWithLMHeadModel.

Inductive tokenizer_class : Type :=
| GPT2Tokenizer | CTRLTokenizer | OpenAIGPTTokenizer
| XLNetTokenizer | TransfoXLTokenizer | XLMTokenizer.

(** A Python dict with string keys, in insertion order. *)
Fixpoint dict_get {V : Type} (d : list (string * V)) (k : string) : option V :=
  match d with
  | [] => None
  | (k', v) :: d' => if String.eqb k k' then Some v else dict_get d' k
  end.

Definition dict_keys {V : Type} (d : list (string * V)) : list string :=
  map fst d.

Definition MODEL_CLASSES : list (string * (model_class * tokenizer_class)) :=
  [ ("gpt2",       (GPT2LMHeadModel, GPT2Tokenizer));
    ("distilgpt2", (GPT2LMHeadModel, GPT2Tokenizer));
    ("ctrl",       (CTRLLMHeadModel, CTRLTokenizer));
    ("openai-gpt", (OpenAIGPTLMHeadModel, OpenAIGPTTokenizer));
    ("xlnet",      (XLNetLMHeadModel, XLNetTokenizer));
    ("transfo-xl", (TransfoXLLMHeadModel, TransfoXLTokenizer));
    ("xlm",        (XLMWithLMHeadModel, XLMTokenizer)) ].

(** [PADDING_TEXT], a triple-quoted literal of ten lines. *)
Definition PADDING_TEXT : string :=
  " In 1991, the remains of Russian Tsar Nicholas II and his family"
  ++ PyStr.LF ++
  "(except for Alexei and Maria) are discovered."
  ++ PyStr.LF ++
  "The voice of Nicholas's young son, Tsarevich Alexei Nikolaevich, narrates the"
  ++ PyStr.LF ++
  "remainder of the story. 1883 Western Siberia,"
  ++ PyStr.LF ++
  "a young Grigori Rasputin is asked by his father and a group of men to perform magic."
  ++ PyStr.LF ++
  "Rasputin has a vision and denounces one of the men as a horse thief. Although his"
  ++ PyStr.LF ++
  "father initially slaps him for making such an accusation, Rasputin watches as the"
  ++ PyStr.LF ++
  "man is chased outside and beaten. Twenty years later, Rasputin sees a vision of"
  ++ PyStr.LF ++
  "the Virgin Mary, prompting him to become a priest. Rasputin quickly becomes famous,"
  ++ PyStr.LF ++
  "with people, even a bishop, begging for his blessing. <eod> </s> <eos>".

(** The markers the drivers search for and remove. *)
Definition PAD_MARKER : string := "<pad>".
Definition C_BEGIN : string := "<c-begin>".

(** [" <c-begin> ".strip()], the suffix the batch driver appends to a
    prompt; the method call binds tighter than the [+] before it. *)
Definition C_BEGIN_SUFFIX : string := PyStr.strip " <c-begin> ".

Definition HEADER : string :=
  "prompt" ++ PyStr.TAB ++ "ref_fact" ++ PyStr.TAB ++ "ref" ++ PyStr.TAB
  ++ "gen" ++ PyStr.TAB ++ "style_label" ++ PyStr.LF.

(** The parsed command line, [args]. *)
Record Args : Type := {
  model_type : string;
  model_name_or_path : string;
  prompt : string;
  length : Z;
  stop_token : option string;
  temperature : float;
  repetition_penalty : float;
  k : Z;
  p : float;
  padding_text : string;
  xlm_language : string;
  seed : Z;
  no_cuda : bool;
  no_file : bool;
  prompt_file : string;
  output_file : string;
  use_fact : bool;
  fact_sep : bool;
  cond_gen : bool
}.

(** The preprocessing functions of the padding-dependent families; the
    second component of their result is the empty dict. *)
Definition prepare_xlnet_input (args : Args) (prompt_text : string)
  : string * list (string * Z) :=
  ((match padding_text args with
    | EmptyString => PADDING_TEXT
    | String _ _ => padding_text args
    end) ++ prompt_text, []).

Definition prepare_transfoxl_input (args : Args) (prompt_text : string)
  : string * list (string * Z) :=
  ((match padding_text args with
    | EmptyString => PADDING_TEXT
    | String _ _ => padding_text args
    end) ++ prompt_text, []).

Inductive preprocessing_function : Type :=
| prepare_ctrl_input_fn | prepare_xlm_input_fn
| prepare_xlnet_input_fn | prepare_transfoxl_input_fn.

Definition PREPROCESSING_FUNCTIONS : list (string * preprocessing_function) :=
  [ ("ctrl",       prepare_ctrl_input_fn);
    ("xlm",        prepare_xlm_input_fn);
    ("xlnet",      prepare_xlnet_input_fn);
    ("transfo-xl", prepare_transfoxl_input_fn) ].

(* ================================================================== *)
(** * External collaborators and the effects of the script *)
(* ================================================================== *)

(** A two-dimensional integer tensor, as its rows (what [tolist] gives). *)
Definition tensor : Type := list (list Z).

(** The codec.  [encode] is [tokenizer.encode(text,
    add_special_tokens=False)]; [decode] is [tokenizer.decode(ids,
    clean_up_tokenization_spaces=True)]. *)
Record Tokenizer : Type := {
  encode : string -> list Z;
  decode : list Z -> string
}.

(** With [return_tensors="pt"] the ids come back as a tensor of shape
    [(1, n)]: the drivers read the ids back with [e_p.cpu()[0].tolist()]. *)
Definition encode_pt (tok : Tokenizer) (text : string) : tensor :=
  [encode tok text].

(** The keyword arguments of [model.generate]. *)
Record GenConfig : Type := {
  max_length : Z;
  gen_temperature : float;
  top_k : Z;
  top_p : float;
  gen_repetition_penalty : float;
  do_sample : bool
}.

Inductive device : Type := Cpu | Cuda.

Inductive exn : Type :=
| KeyError | IndexError | EOFError | OSError | AttributeError | TypeError.

Inductive result (A : Type) : Type :=
| Ok (a : A)
| Raise (e : exn).
Arguments Ok {A} a.
Arguments Raise {A} e.

Inductive event : Type :=
| EvLoadTokenizer (cls : tokenizer_class) (path : string)
| EvLoadModel (cls : model_class) (path : string)
| EvReadCsv (path : string)
| EvOpen (path mode : string)
| EvWrite (data : string)
| EvClose
| EvGenerate (input_ids : tensor) (cfg : GenConfig) (output : tensor)
| EvInput (prompt_shown : string)
| EvPrint (line : string).

(** A cell of a table read by [pd.read_csv]: text, or a number where pandas
    parsed one (an all-numeric column comes back as ints, an empty or NA
    cell as the float NaN). *)
Inductive cell : Type :=
| CellStr (s : string)
| CellInt (n : Z)
| CellFloat (x : float).

(** A table read by [pd.read_csv]: its columns by name. *)
Definition DataFrame : Type := list (string * list cell).

Section Script.

(** The state of a pseudo-random generator. *)
Variable G : Type.

(** The language model: its configured capacity and its sampling
    generation routine, which draws from the generator of the device its
    input lives on and leaves that generator advanced. *)
Record Model : Type := {
  max_position_embeddings : Z;
  generate : GenConfig -> tensor -> G -> tensor * G
}.

(** What the script finds on the machine it runs on. *)
Record Env : Type := {
  cuda_is_available : bool;
  cuda_device_count : Z;
  np_random_seed : Z -> G;
  torch_manual_seed : Z -> G;
  torch_cuda_manual_seed_all : Z -> G;
  tokenizer_from_pretrained : tokenizer_class -> string -> result Tokenizer;
  model_from_pretrained : model_class -> string -> result Model;
  read_csv : string -> result DataFrame;
  open_file : string -> string -> result unit;
  operator_lines : list string
}.

(** The mutable state: the three generators the script seeds, and the
    effects performed so far, oldest first. *)
Record world : Type := {
  np_rng : G;
  torch_rng : G;
  cuda_rng : G;
  trace : list event
}.

Definition M (A : Type) : Type := world -> result A * world.

Definition ret {A : Type} (a : A) : M A := fun w => (Ok a, w).

Definition raise {A : Type} (e : exn) : M A := fun w => (Raise e, w).

Definition bind {A B : Type} (c : M A) (f : A -> M B) : M B :=
  fun w =>
    match c w with
    | (Ok a, w') => f a w'
    | (Raise e, w') => (Raise e, w')
    end.

Definition lift {A : Type} (r : result A) : M A := fun w => (r, w).

Definition emit (e : event) : M unit :=
  fun w =>
    (Ok tt, {| np_rng := np_rng w; torch_rng := torch_rng w;
               cuda_rng := cuda_rng w; trace := trace w ++ [e] |}).

Definition rng_of (d : device) (w : world) : G :=
  match d with Cpu => torch_rng w | Cuda => cuda_rng w end.

Definition set_rng (d : device) (g : G) (w : world) : world :=
  match d with
  | Cpu => {| np_rng := np_rng w; torch_rng := g;
              cuda_rng := cuda_rng w; trace := trace w |}
  | Cuda => {| np_rng := np_rng w; torch_rng := torch_rng w;
               cuda_rng := g; trace := trace w |}
  end.

End Script.

Arguments max_position_embeddings {G} _.
Arguments generate {G} _ _ _ _.
Arguments cuda_is_available {G} _.
Arguments cuda_device_count {G} _.
Arguments np_random_seed {G} _ _.
Arguments torch_manual_seed {G} _ _.
Arguments torch_cuda_manual_seed_all {G} _ _.
Arguments tokenizer_from_pretrained {G} _ _ _.
Arguments model_from_pretrained {G} _ _ _.
Arguments read_csv {G} _ _.
Arguments open_file {G} _ _ _.
Arguments operator_lines {G} _.
Arguments np_rng {G} _.
Arguments torch_rng {G} _.
Arguments cuda_rng {G} _.
Arguments trace {G} _.
Arguments Build_world {G} _ _ _ _.
Arguments ret {G A} a _.
Arguments raise {G A} e _.
Arguments bind {G A B} c f _.
Arguments lift {G A} r _.
Arguments emit {G} e _.
Arguments rng_of {G} d w.
Arguments set_rng {G} d g w.

Declare Scope script_scope.
Delimit Scope script_scope with script.
Notation "x <- c ;; f" := (bind c (fun x => f))
  (at level 61, c at next level, right associativity) : script_scope.
Notation "c ;;; f" := (bind c (fun _ => f))
  (at level 61, right associativity) : script_scope.

(* ================================================================== *)
(** * Text post-processing of the two drivers *)
(* ================================================================== *)

(** [text.find(args.stop_token) if args.stop_token else None], the end
    index of the truncating slice. *)
Definition stop_index (stop : option string) (text : string) : option Z :=
  match stop with
  | Some s => if PyStr.truthy stop then Some (PyStr.find text s) else None
  | None => None
  end.

(** Interactive driver: [text[: stop_index]]. *)
Definition truncate_interactive (stop : option string) (text : string)
  : string :=
  PyStr.slice text None (stop_index stop text).

(** Batch driver: [text[text.find("<c-begin>") : stop_index]]. *)
Definition truncate_batch (stop : option string) (text : string) : string :=
  PyStr.slice text (Some (PyStr.find text C_BEGIN)) (stop_index stop text).

(** The step both drivers share: padding markers removed, line feeds
    replaced by spaces. *)
Definition postprocess (text : string) : string :=
  let text := PyStr.replace text PAD_MARKER "" in
  PyStr.replace text PyStr.LF " ".

(** The batch driver also removes the continuation-begin marker, between
    the two replacements. *)
Definition postprocess_batch (text : string) : string :=
  let text := PyStr.replace text PAD_MARKER "" in
  let text := PyStr.replace text C_BEGIN "" in
  PyStr.replace text PyStr.LF " ".

(** What the interactive driver prints for a decoded text. *)
Definition interactive_output (stop : option string) (decoded : string)
  : string :=
  postprocess (truncate_interactive stop decoded).

(** The [gen] field the batch driver writes for a decoded text. *)
Definition batch_gen_field (stop : option string) (decoded : string)
  : string :=
  PyStr.strip (postprocess_batch (truncate_batch stop decoded)).

(** ["{}\t{}\t{}\t{}\t{}\n".format(a, b, c, d, 1)] *)
Definition format_row (a b c d : string) : string :=
  a ++ PyStr.TAB ++ b ++ PyStr.TAB ++ c ++ PyStr.TAB ++ d ++ PyStr.TAB
  ++ "1" ++ PyStr.LF.

(* ================================================================== *)
(** * The script *)
(* ================================================================== *)

Section Drivers.

Variable G : Type.

Local Open Scope script_scope.

(** [xs[i]] on a Python list. *)
Definition index {A : Type} (xs : list A) (i : nat) : M G A :=
  match nth_error xs i with
  | Some x => ret x
  | None => raise IndexError
  end.

(** [data[name].values.tolist()] *)
Definition column (data : DataFrame) (name : string) : M G (list cell) :=
  match dict_get data name with
  | Some col => ret col
  | None => raise KeyError
  end.

(** [set_seed(args)] *)
Definition set_seed (env : Env G) (args : Args) (n_gpu : Z) : M G unit :=
  fun w =>
    let np := np_random_seed env (seed args) in
    let torch := torch_manual_seed env (seed args) in
    let cuda := if n_gpu >? 0
                then torch_cuda_manual_seed_all env (seed args)
                else cuda_rng w in
    (Ok tt, Build_world np torch cuda (trace w)).

Definition gen_config (args : Args) : GenConfig :=
  {| max_length := length args;
     gen_temperature := temperature args;
     top_k := k args;
     top_p := p args;
     gen_repetition_penalty := repetition_penalty args;
     do_sample := true |}.

(** [model.generate(input_ids=e_p, ...)] for an input on device [d]; the
    call is recorded with its result. *)
Definition model_generate (model : Model G) (d : device) (args : Args)
           (e_p : tensor) : M G tensor :=
  out <- (fun w =>
            let (out, g) :=
              generate model (gen_config args) e_p (rng_of d w) in
            (Ok out, set_rng d g w)) ;;
  emit (EvGenerate e_p (gen_config args) out) ;;;
  ret out.

(** The [encoded_prompt] list of the batch driver, for a title column of
    text cells. *)
Definition encode_prompts (tokenizer : Tokenizer) (prompt_list : list string)
  : list tensor :=
  map (fun prompt_text =>
         firstn 100 (encode_pt tokenizer (prompt_text ++ C_BEGIN_SUFFIX)))
      prompt_list.

(** The [ref_content] list of the batch driver, for a content column of
    text cells. *)
Definition ref_contents (ref_list : list string) : list string :=
  map (fun i => PyStr.join " " (firstn 400 (PyStr.split (PyStr.strip i))))
      ref_list.

(** [c.strip()] on a cell: numbers have no such method. *)
Definition cell_strip (c : cell) : result string :=
  match c with
  | CellStr s => Ok (PyStr.strip s)
  | CellInt _ | CellFloat _ => Raise AttributeError
  end.

(** [c + suffix] on a cell: a number and a string do not add. *)
Definition cell_concat (c : cell) (suffix : string) : result string :=
  match c with
  | CellStr s => Ok (s ++ suffix)
  | CellInt _ | CellFloat _ => Raise TypeError
  end.

(** A list comprehension [[f(x) for x in xs]] whose element expression may
    raise: the first failure ends it. *)
Fixpoint comprehension {A B : Type} (f : A -> result B) (xs : list A)
  : result (list B) :=
  match xs with
  | [] => Ok []
  | x :: xs' =>
      match f x with
      | Raise e => Raise e
      | Ok y =>
          match comprehension f xs' with
          | Raise e => Raise e
          | Ok ys => Ok (y :: ys)
          end
      end
  end.

(** The [encoded_prompt] list of the batch driver, on the cells of the title
    column. *)
Definition encode_prompt_cells (tokenizer : Tokenizer)
           (prompt_list : list cell) : result (list tensor) :=
  comprehension
    (fun prompt_text =>
       match cell_concat prompt_text C_BEGIN_SUFFIX with
       | Ok text => Ok (firstn 100 (encode_pt tokenizer text))
       | Raise e => Raise e
       end)
    prompt_list.

(** The [ref_content] list of the batch driver, on the cells of the content
    column. *)
Definition ref_content_cells (ref_list : list cell) : result (list string) :=
  comprehension
    (fun i =>
       match cell_strip i with
       | Ok stripped =>
           Ok (PyStr.join " " (firstn 400 (PyStr.split stripped)))
       | Raise e => Raise e
       end)
    ref_list.

(** The body of [for i, e_p in enumerate(encoded_prompt)], from index [i]
    on. *)
Fixpoint file_gen_loop (tokenizer : Tokenizer) (model : Model G)
         (d : device) (args : Args) (fact_raw : list cell)
         (ref_content : list string)
         (i : nat) (encoded_prompt : list tensor) : M G unit :=
  match encoded_prompt with
  | [] => ret tt
  | e_p :: rest =>
      output_sequences <- model_generate model d args e_p ;;
      generated_sequence <- index output_sequences 0 ;;
      let text := decode tokenizer generated_sequence in
      let text := truncate_batch (stop_token args) text in
      let text := postprocess_batch text in
      row0 <- index e_p 0 ;;
      let prompt_text := decode tokenizer row0 in
      fact <- index fact_raw i ;;
      fact <- lift (cell_strip fact) ;;
      ref <- index ref_content i ;;
      emit (EvWrite (format_row (PyStr.strip prompt_text) fact
                                (PyStr.strip ref) (PyStr.strip text))) ;;;
      file_gen_loop tokenizer model d args fact_raw ref_content (S i) rest
  end.

(** [file_gen(args)] *)
Definition file_gen (env : Env G) (tokenizer : Tokenizer) (model : Model G)
           (d : device) (args : Args) : M G unit :=
  emit (EvReadCsv (prompt_file args)) ;;;
  data <- lift (read_csv env (prompt_file args)) ;;
  prompt_list <- column data "title" ;;
  ref_list <- column data "content" ;;
  ref_content <- lift (ref_content_cells ref_list) ;;
  let fact_raw := prompt_list in
  encoded_prompt <- lift (encode_prompt_cells tokenizer prompt_list) ;;
  emit (EvOpen (output_file args) "w+") ;;;
  lift (open_file env (output_file args) "w+") ;;;
  emit (EvWrite HEADER) ;;;
  file_gen_loop tokenizer model d args fact_raw ref_content 0
                encoded_prompt ;;;
  emit EvClose.

(** [prompt_gen()]: [while True] over the lines the operator types;
    [input] raises [EOFError] when they run out. *)
Fixpoint prompt_gen_loop (tokenizer : Tokenizer) (model : Model G)
         (d : device) (args : Args) (lines : list string) : M G unit :=
  match lines with
  | [] => emit (EvInput "Prompt Text>>") ;;; raise EOFError
  | text :: rest =>
      emit (EvInput "Prompt Text>>") ;;;
      let e_p := encode_pt tokenizer text in
      output_sequences <- model_generate model d args e_p ;;
      generated_sequence <- index output_sequences 0 ;;
      let text := decode tokenizer generated_sequence in
      let text := truncate_interactive (stop_token args) text in
      let text := postprocess text in
      emit (EvPrint text) ;;;
      prompt_gen_loop tokenizer model d args rest
  end.

Definition prompt_gen (env : Env G) (tokenizer : Tokenizer)
           (model : Model G) (d : device) (args : Args) : M G unit :=
  prompt_gen_loop tokenizer model d args (operator_lines env).

Definition with_length (args : Args) (n : Z) : Args :=
  {| model_type := model_type args;
     model_name_or_path := model_name_or_path args;
     prompt := prompt args;
     length := n;
     stop_token := stop_token args;
     temperature := temperature args;
     repetition_penalty := repetition_penalty args;
     k := k args;
     p := p args;
     padding_text := padding_text args;
     xlm_language := xlm_language args;
     seed := seed args;
     no_cuda := no_cuda args;
     no_file := no_file args;
     prompt_file := prompt_file args;
     output_file := output_file args;
     use_fact := use_fact args;
     fact_sep := fact_sep args;
     cond_gen := cond_gen args |}.

Definition with_model_type (args : Args) (s : string) : Args :=
  {| model_type := s;
     model_name_or_path := model_name_or_path args;
     prompt := prompt args;
     length := length args;
     stop_token := stop_token args;
     temperature := temperature args;
     repetition_penalty := repetition_penalty args;
     k := k args;
     p := p args;
     padding_text := padding_text args;
     xlm_language := xlm_language args;
     seed := seed args;
     no_cuda := no_cuda args;
     no_file := no_file args;
     prompt_file := prompt_file args;
     output_file := output_file args;
     use_fact := use_fact args;
     fact_sep := fact_sep args;
     cond_gen := cond_gen args |}.

(** [main()], from the parsed arguments on. *)
Definition main (env : Env G) (args : Args) : M G unit :=
  let d := if cuda_is_available env && negb (no_cuda args)
           then Cuda else Cpu in
  let n_gpu := cuda_device_count env in
  set_seed env args n_gpu ;;;
  let args := with_model_type args (PyStr.lower (model_type args)) in
  match dict_get MODEL_CLASSES (model_type args) with
  | None => raise KeyError
  | Some (model_class, tokenizer_class) =>
      emit (EvLoadTokenizer tokenizer_class (model_name_or_path args)) ;;;
      tokenizer <- lift (tokenizer_from_pretrained
                           env tokenizer_class (model_name_or_path args)) ;;
      emit (EvLoadModel model_class (model_name_or_path args)) ;;;
      model <- lift (model_from_pretrained
                       env model_class (model_name_or_path args)) ;;
      let args := with_length args
                    (adjust_length_to_model
                       (length args) (max_position_embeddings model)) in
      if no_file args
      then prompt_gen env tokenizer model d args
      else file_gen env tokenizer model d args
  end.

End Drivers.

Arguments index {G A} xs i _.
Arguments column {G} data name _.
Arguments set_seed {G} env args n_gpu _.
Arguments model_generate {G} model d args e_p _.
Arguments file_gen_loop {G} tokenizer model d args fact_raw ref_content i
  encoded_prompt _.
Arguments file_gen {G} env tokenizer model d args _.
Arguments prompt_gen_loop {G} tokenizer model d args lines _.
Arguments prompt_gen {G} env tokenizer model d args _.
Arguments main {G} env args _.

(* ================================================================== *)
(** * Observations on a run, and vocabulary of the statements *)
(* ================================================================== *)

(** The strings written to the output file, in order. *)
Definition written {G : Type} (w : world G) : list string :=
  flat_map (fun e => match e with EvWrite s => [s] | _ => [] end) (trace w).

(** The lines printed on the console, in order. *)
Definition printed {G : Type} (w : world G) : list string :=
  flat_map (fun e => match e with EvPrint s => [s] | _ => [] end) (trace w).

(** The inputs and outputs of the calls of the generation routine. *)
Definition generation_calls {G : Type} (w : world G)
  : list (tensor * tensor) :=
  flat_map (fun e => match e with
                     | EvGenerate i _ o => [(i, o)]
                     | _ => []
                     end) (trace w).

(** A string without its last character. *)
Fixpoint drop_last (s : string) : string :=
  match s with
  | EmptyString => EmptyString
  | String c s' =>
      match s' with
      | EmptyString => EmptyString
      | String _ _ => String c (drop_last s')
      end
  end.

(** Whether a character occurs in a string. *)
Fixpoint has_char (c : ascii) (s : string) : bool :=
  match s with
  | EmptyString => false
  | String c' s' => Ascii.eqb c c' || has_char c s'
  end.

(** Whether a cell is text. *)
Definition is_text (c : cell) : bool :=
  match c with
  | CellStr _ => true
  | CellInt _ | CellFloat _ => false
  end.

(** A table with the two columns the batch driver reads, of equal length,
    every cell of which is text: [titles] and [contents] are the texts. *)
Definition well_formed (data : DataFrame) (titles contents : list string)
  : Prop :=
  dict_get data "title" = Some (map CellStr titles)
  /\ dict_get data "content" = Some (map CellStr contents)
  /\ List.length titles = List.length contents.

(** The [prompt] field of the row of an input row: the encoded prompt,
    decoded again and trimmed. *)
Definition prompt_field (tokenizer : Tokenizer) (title : string) : string :=
  PyStr.strip (decode tokenizer (encode tokenizer (title ++ C_BEGIN))).

(** The [ref] field: the first 400 words of the reference. *)
Definition ref_field (content : string) : string :=
  PyStr.strip
    (PyStr.join " " (firstn 400 (PyStr.split (PyStr.strip content)))).

(** The output row of one input row whose generated sequence is [seq]. *)
Definition output_row (tokenizer : Tokenizer) (stop : option string)
           (item : string * string * list Z) : string :=
  let '(title, content, seq) := item in
  format_row (prompt_field tokenizer title) (PyStr.strip title)
             (ref_field content)
             (batch_gen_field stop (decode tokenizer seq)).

(** A codec that decodes what it encoded. *)
Definition round_trip (tokenizer : Tokenizer) : Prop :=
  forall s, decode tokenizer (encode tokenizer s) = s.

(** The events of one iteration of the batch loop: the generation call with
    its result [out], then the row written from the first sequence of
    [out]. *)
Definition row_events (tokenizer : Tokenizer) (args : Args)
           (item : string * string * (tensor * list Z)) : list event :=
  let '(title, content, (out, seq)) := item in
  [ EvGenerate [encode tokenizer (title ++ C_BEGIN)] (gen_config args) out;
    EvWrite (output_row tokenizer (stop_token args) (title, content, seq)) ].

(** The events of one iteration of the interactive loop. *)
Definition prompt_events (tokenizer : Tokenizer) (args : Args)
           (item : string * (tensor * list Z)) : list event :=
  let '(text, (out, seq)) := item in
  [ EvInput "Prompt Text>>";
    EvGenerate [encode tokenizer text] (gen_config args) out;
    EvPrint (interactive_output (stop_token args) (decode tokenizer seq)) ].

(** [seq] is [out[0]]. *)
Definition first_row (item : tensor * list Z) : Prop :=
  nth_error (fst item) 0 = Some (snd item).

(** A generation routine that returns at least one sequence when its input
    has at least one row. *)
Definition returns_a_sequence {G : Type} (model : Model G) : Prop :=
  forall cfg input_ids g,
    input_ids <> [] -> fst (generate model cfg input_ids g) <> [].

(** Two worlds that differ at most in generators the run does not read. *)
Definition same_for {G : Type} (d : device) (w1 w2 : world G) : Prop :=
  trace w1 = trace w2 /\ rng_of d w1 = rng_of d w2.

(** A computation whose result and effects depend on the world only through
    its trace and the generator of device [d]. *)
Definition deterministic {G A : Type} (d : device) (c : M G A) : Prop :=
  forall w1 w2,
    same_for d w1 w2 ->
    fst (c w1) = fst (c w2) /\ same_for d (snd (c w1)) (snd (c w2)).

(* ================================================================== *)
(** * A small concrete setting, for examples *)
(* ================================================================== *)

(** A codec with one token per character: the character's code. *)
Definition char_tokenizer : Tokenizer :=
  {| encode := fun s =>
       map (fun c => Z.of_nat (nat_of_ascii c)) (list_ascii_of_string s);
     decode := fun ids =>
       string_of_list_ascii (map (fun i => ascii_of_nat (Z.to_nat i)) ids) |}.

(** A model that continues every row with " blue" and a digit drawn from
    its generator, a counter. *)
Definition toy_model : Model Z :=
  {| max_position_embeddings := 1024;
     generate := fun _ input_ids g =>
       (map (fun row => (row ++ encode char_tokenizer " blue"
                             ++ [48 + g mod 10])%list) input_ids,
        g + 1) |}.

Definition toy_table : DataFrame :=
  [ ("title", [CellStr "The sky"; CellStr "Hello world"]);
    ("content", [CellStr "was blue and clear for miles.";
                 CellStr "and  hello again"]) ].

Definition toy_env : Env Z :=
  {| cuda_is_available := false;
     cuda_device_count := 0;
     np_random_seed := fun s => s;
     torch_manual_seed := fun s => s;
     torch_cuda_manual_seed_all := fun s => s;
     tokenizer_from_pretrained := fun _ _ => Ok char_tokenizer;
     model_from_pretrained := fun _ _ => Ok toy_model;
     read_csv := fun _ => Ok toy_table;
     open_file := fun _ _ => Ok tt;
     operator_lines := ["Hello world"] |}.

Definition toy_args : Args :=
  {| model_type := "gpt2";
     model_name_or_path := "gpt2";
     prompt := "";
     length := 20;
     stop_token := None;
     temperature := 1%float;
     repetition_penalty := 1%float;
     k := 0;
     p := 1%float;
     padding_text := "";
     xlm_language := "";
     seed := 42;
     no_cuda := false;
     no_file := false;
     prompt_file := "in.tsv";
     output_file := "out.tsv";
     use_fact := false;
     fact_sep := false;
     cond_gen := false |}.

(** The same setting with one row whose title has more than 100
    characters, hence more than 100 tokens. *)
Definition long_title : string :=
  "The quick brown fox jumps over the lazy dog while the"
  ++ " slow green turtle crawls under the busy bridge before dawn.".

Definition long_env : Env Z :=
  {| cuda_is_available := false;
     cuda_device_count := 0;
     np_random_seed := fun s => s;
     torch_manual_seed := fun s => s;
     torch_cuda_manual_seed_all := fun s => s;
     tokenizer_from_pretrained := fun _ _ => Ok char_tokenizer;
     model_from_pretrained := fun _ _ => Ok toy_model;
     read_csv := fun _ => Ok [("title", [CellStr long_title]);
                              ("content", [CellStr "x"])];
     open_file := fun _ _ => Ok tt;
     operator_lines := [] |}.

(** The interactive run of a padding-dependent family. *)
Definition xlnet_args : Args :=
  {| model_type := "xlnet";
     model_name_or_path := "xlnet-base-cased";
     prompt := "";
     length := 20;
     stop_token := None;
     temperature := 1%float;
     repetition_penalty := 1%float;
     k := 0;
     p := 1%float;
     padding_text := "";
     xlm_language := "";
     seed := 42;
     no_cuda := false;
     no_file := true;
     prompt_file := "";
     output_file := "";
     use_fact := false;
     fact_sep := false;
     cond_gen := false |}.

Definition toy_world (g : Z) : world Z :=
  {| np_rng := g; torch_rng := g; cuda_rng := g; trace := [] |}.

(* ================================================================== *)
(** * Vocabulary of the further properties *)
(* ================================================================== *)

(** A computation that, from any world, only adds events satisfying [P]. *)
Definition emits_only {G A : Type} (P : event -> Prop) (c : M G A) : Prop :=
  forall w : world G,
    exists tr, trace (snd (c w)) = (trace w ++ tr)%list /\ Forall P tr.

(** Accesses to the input table and the output file. *)
Definition is_file_event (e : event) : bool :=
  match e with
  | EvReadCsv _ | EvOpen _ _ | EvWrite _ | EvClose => true
  | _ => false
  end.

(** Exchanges with the operator. *)
Definition is_console_event (e : event) : bool :=
  match e with
  | EvInput _ | EvPrint _ => true
  | _ => false
  end.

(** The configuration an event passes to the generation routine, if it is a
    generation call. *)
Definition config_of (e : event) : option GenConfig :=
  match e with
  | EvGenerate _ cfg _ => Some cfg
  | _ => None
  end.

(** Whether a string holds a whitespace character. *)
Fixpoint has_space (s : string) : bool :=
  match s with
  | EmptyString => false
  | String c s' => PyStr.is_space c || has_space s'
  end.

(** A word: non-empty, without whitespace. *)
Definition is_word (s : string) : bool :=
  negb (String.eqb s "") && negb (has_space s).

(** The last character of a string, as a string ([s[-1:]]). *)
Fixpoint last_char (s : string) : string :=
  match s with
  | EmptyString => EmptyString
  | String c s' =>
      match s' with
      | EmptyString => String c EmptyString
      | String _ _ => last_char s'
      end
  end.

(** The concrete setting with a chosen table, codec, model and operator
    input; each of the first three may be an error. *)
Definition toy_env_with (table : result DataFrame)
           (tokenizer : result Tokenizer) (model : result (Model Z))
           (lines : list string) : Env Z :=
  {| cuda_is_available := false;
     cuda_device_count := 0;
     np_random_seed := fun s => s;
     torch_manual_seed := fun s => s;
     torch_cuda_manual_seed_all := fun s => s;
     tokenizer_from_pretrained := fun _ _ => tokenizer;
     model_from_pretrained := fun _ _ => model;
     read_csv := fun _ => table;
     open_file := fun _ _ => Ok tt;
     operator_lines := lines |}.

(** A model that returns no sequence once its generator has reached 43. *)
Definition tiring_model : Model Z :=
  {| max_position_embeddings := 1024;
     generate := fun _ input_ids g =>
       (if g <? 43
        then map (fun row => (row ++ encode char_tokenizer " blue")%list)
                 input_ids
        else [],
        g + 1) |}.

(* ================================================================== *)
(** * The preprocessing functions of the other families *)
(* ================================================================== *)

Definition CTRL_TEMPERATURE_HINT : string :=
  "CTRL typically works better with lower temperatures (and lower top_k).".

Definition CTRL_CODE_WARNING : string :=
  "WARNING! You are not starting your generation from a control code so you won't get good results".

(** [any(encoded_prompt[0] == x for x in values)]: the generator reads
    [encoded_prompt[0]] once for each value it tries. *)
Fixpoint any_first_is (encoded_prompt : list Z) (values : list Z)
  : result bool :=
  match values with
  | [] => Ok false
  | x :: rest =>
      match encoded_prompt with
      | [] => Raise IndexError
      | first :: _ =>
          if first =? x then Ok true else any_first_is encoded_prompt rest
      end
  end.

(** [prepare_ctrl_input(args, _, tokenizer, prompt_text)], with
    [tokenizer.control_codes] as a dict: the messages logged, and the
    result.  The float literal is [0.7]. *)
Definition prepare_ctrl_input (args : Args) (tokenizer : Tokenizer)
           (control_codes : list (string * Z)) (prompt_text : string)
  : list string * result string :=
  let logged :=
    if PrimFloat.ltb 0x1.6666666666666p-1%float (temperature args)
    then [CTRL_TEMPERATURE_HINT] else [] in
  let encoded_prompt := encode tokenizer prompt_text in
  match any_first_is encoded_prompt (map snd control_codes) with
  | Raise e => (logged, Raise e)
  | Ok true => (logged, Ok prompt_text)
  | Ok false => ((logged ++ [CTRL_CODE_WARNING])%list, Ok prompt_text)
  end.

(** The attributes of [model.config] that [prepare_xlm_input] looks at;
    [None] is a missing attribute. *)
Record XLMConfig : Type := {
  use_lang_emb : option bool;
  lang2id : option (list (string * Z))
}.

(** [while language not in available_languages: language = input(...)],
    over the lines the operator types: how many were read, and the language
    chosen. *)
Fixpoint ask_language (available : list string) (lines : list string)
  : nat * result string :=
  match lines with
  | [] => (O, Raise EOFError)
  | line :: rest =>
      if existsb (String.eqb line) available then (1%nat, Ok line)
      else let (n, r) := ask_language available rest in (S n, r)
  end.

(** [prepare_xlm_input(args, model, tokenizer, prompt_text)]: the number of
    lines read from the operator, and the result. *)
Definition prepare_xlm_input (args : Args) (config : XLMConfig)
           (lines : list string) (prompt_text : string)
  : nat * result string :=
  let use := match use_lang_emb config with
             | Some b => b
             | None => false
             end in
  match lang2id config with
  | Some table =>
      if use then
        let available_languages := dict_keys table in
        if existsb (String.eqb (xlm_language args)) available_languages
        then (O, Ok prompt_text)
        else match ask_language available_languages lines with
             | (n, Ok _) => (n, Ok prompt_text)
             | (n, Raise e) => (n, Raise e)
             end
      else (O, Ok prompt_text)
  | None => (O, Ok prompt_text)
  end.

(* ================================================================== *)
(** * The length resolver: results *)
(* ================================================================== *)

Lemma adjust_length_first_match (requested capacity : Z) :
  first_match rules_in_order requested capacity
  = Some (adjust_length_to_model requested capacity).
Proof.
  unfold adjust_length_to_model, rules_in_order; simpl.
  destruct ((requested <? 0) && (capacity >? 0)); [reflexivity|].
  destruct ((0 <? capacity) && (capacity <? requested)); [reflexivity|].
  destruct (requested <? 0); reflexivity.
Qed.

Ltac length_cases :=
  unfold adjust_length_to_model, MAX_LENGTH in *;
  repeat match goal with
         | |- context [?a <? ?b] => destruct (Z.ltb_spec a b)
         | |- context [?a >? ?b] =>
             rewrite (Z.gtb_ltb a b); destruct (Z.ltb_spec b a)
         end; simpl; try lia.

(** C1: the length resolver returns model_capacity when requested < 0 and
    model_capacity > 0; else model_capacity when 0 < model_capacity <
    requested; else the safety bound 10000 when requested < 0 (and so
    model_capacity <= 0); otherwise requested unchanged.  The cases are tried
    in this order: the result is that of the first rule of [rules_in_order]
    whose guard holds. *)
Theorem adjust_length_to_model_rules (requested capacity : Z) :
  (requested < 0 -> capacity > 0 ->
   adjust_length_to_model requested capacity = capacity)
  /\ (~ (requested < 0 /\ capacity > 0) ->
      0 < capacity < requested ->
      adjust_length_to_model requested capacity = capacity)
  /\ (~ (requested < 0 /\ capacity > 0) ->
      ~ (0 < capacity < requested) ->
      requested < 0 ->
      capacity <= 0
      /\ adjust_length_to_model requested capacity = 10000)
  /\ (~ (requested < 0 /\ capacity > 0) ->
      ~ (0 < capacity < requested) ->
      ~ requested < 0 ->
      adjust_length_to_model requested capacity = requested)
  /\ first_match rules_in_order requested capacity
     = Some (adjust_length_to_model requested capacity).
Proof.
  split; [|split; [|split; [|split]]];
    try apply adjust_length_first_match; intros; try split; length_cases.
Qed.

Lemma adjust_length_to_model_rules_witness :
  adjust_length_to_model (-1) 1024 = 1024
  /\ adjust_length_to_model 2000 1024 = 1024
  /\ adjust_length_to_model (-1) 0 = 10000
  /\ adjust_length_to_model 20 1024 = 20.
Proof.
  destruct (adjust_length_to_model_rules (-1) 1024) as [H1 _].
  destruct (adjust_length_to_model_rules 2000 1024) as [_ [H2 _]].
  destruct (adjust_length_to_model_rules (-1) 0) as [_ [_ [H3 _]]].
  destruct (adjust_length_to_model_rules 20 1024) as [_ [_ [_ [H4 _]]]].
  split; [apply H1; lia|].
  split; [apply H2; lia|].
  split; [apply H3; lia|].
  apply H4; lia.
Defined.

(** C4, as stated, fails: a request of 0 is returned unchanged, so the
    resolved length is not positive; and with no positive capacity a
    non-negative request is returned unchanged, above the safety bound. *)
Lemma resolved_length_not_always_bounded :
  ~ (forall requested capacity : Z,
        0 < adjust_length_to_model requested capacity
        /\ (0 < capacity ->
            adjust_length_to_model requested capacity <= capacity)
        /\ (capacity <= 0 ->
            adjust_length_to_model requested capacity <= MAX_LENGTH)).
Proof.
  intros H.
  destruct (H 0 1024) as [Hpos _].
  vm_compute in Hpos. discriminate Hpos.
Qed.

Lemma resolved_length_above_safety_bound :
  adjust_length_to_model 20000 0 = 20000 /\ ~ 20000 <= MAX_LENGTH.
Proof.
  split; [reflexivity|]. unfold MAX_LENGTH. lia.
Qed.

(** C4, amended: the resolved length is never negative, and positive for
    every request other than 0; it is at most the capacity when the capacity
    is positive; with no positive capacity it is the safety bound 10000 for a
    negative request and the request itself otherwise, hence at most 10000
    exactly when the request is. *)
Theorem adjust_length_to_model_bounds (requested capacity : Z) :
  0 <= adjust_length_to_model requested capacity
  /\ (requested <> 0 -> 0 < adjust_length_to_model requested capacity)
  /\ (0 < capacity -> adjust_length_to_model requested capacity <= capacity)
  /\ (capacity <= 0 -> requested < 0 ->
      adjust_length_to_model requested capacity = MAX_LENGTH)
  /\ (capacity <= 0 -> 0 <= requested ->
      adjust_length_to_model requested capacity = requested)
  /\ (capacity <= 0 -> requested <= MAX_LENGTH ->
      adjust_length_to_model requested capacity <= MAX_LENGTH).
Proof.
  split; [|split; [|split; [|split; [|split]]]]; intros; length_cases.
Qed.

Lemma adjust_length_to_model_bounds_witness :
  0 < adjust_length_to_model (-5) 1024
  /\ adjust_length_to_model 2000 1024 <= 1024
  /\ adjust_length_to_model (-5) 0 = MAX_LENGTH
  /\ adjust_length_to_model 20 0 = 20
  /\ adjust_length_to_model 20 0 <= MAX_LENGTH.
Proof.
  destruct (adjust_length_to_model_bounds (-5) 1024) as [_ [H1 _]].
  destruct (adjust_length_to_model_bounds 2000 1024) as [_ [_ [H2 _]]].
  destruct (adjust_length_to_model_bounds (-5) 0) as [_ [_ [_ [H3 _]]]].
  destruct (adjust_length_to_model_bounds 20 0) as [_ [_ [_ [_ [H4 H5]]]]].
  split; [apply H1; lia|].
  split; [apply H2; lia|].
  split; [apply H3; lia|].
  split; [apply H4; lia|].
  apply H5; unfold MAX_LENGTH; lia.
Defined.

(* ================================================================== *)
(** * The string operations on small inputs *)
(* ================================================================== *)

Example find_hit : PyStr.find "The sky<c-begin> is" "<c-begin>" = 7.
Proof. reflexivity. Qed.

Example find_miss : PyStr.find "The sky" "<c-begin>" = -1.
Proof. reflexivity. Qed.

Example find_empty_pattern : PyStr.find "abc" "" = 0.
Proof. reflexivity. Qed.

Example replace_all_occurrences :
  PyStr.replace "a<pad>b<pad><pad>c" "<pad>" "" = "abc".
Proof. reflexivity. Qed.

Example replace_does_not_overlap : PyStr.replace "aaa" "aa" "b" = "ba".
Proof. reflexivity. Qed.

Example replace_is_one_pass :
  PyStr.replace "<c-<c-begin>begin>" "<c-begin>" "" = "<c-begin>".
Proof. reflexivity. Qed.

Example slice_to_minus_one_ex : PyStr.slice "hello" None (Some (-1)) = "hell".
Proof. reflexivity. Qed.

Example slice_from_minus_one : PyStr.slice "hello" (Some (-1)) None = "o".
Proof. reflexivity. Qed.

Example slice_minus_one_both :
  PyStr.slice "hello" (Some (-1)) (Some (-1)) = "".
Proof. reflexivity. Qed.

Example slice_inner : PyStr.slice "hello" (Some 1) (Some 3) = "el".
Proof. reflexivity. Qed.

Example strip_both_ends : PyStr.strip "  a b  " = "a b".
Proof. reflexivity. Qed.

Example split_on_runs : PyStr.split "  a  bc d " = ["a"; "bc"; "d"].
Proof. reflexivity. Qed.

Example join_words : PyStr.join " " ["a"; "bc"; "d"] = "a bc d".
Proof. reflexivity. Qed.

Example lower_selector : PyStr.lower "GPT2-Xl" = "gpt2-xl".
Proof. reflexivity. Qed.

Example suffix_is_marker : C_BEGIN_SUFFIX = "<c-begin>".
Proof. reflexivity. Qed.

Example header_text :
  HEADER = String.concat PyStr.TAB
             ["prompt"; "ref_fact"; "ref"; "gen"; "style_label"] ++ PyStr.LF.
Proof. reflexivity. Qed.

(* ================================================================== *)
(** * Facts about the string operations *)
(* ================================================================== *)

Arguments PyStr.startswith : simpl never.

Section StringFacts.

Import PyStr.

Lemma startswith_nil (s : string) : startswith "" s = true.
Proof. destruct s; reflexivity. Qed.

Lemma startswith_cons (a b : ascii) (p0 s : string) :
  startswith (String a p0) (String b s)
  = Ascii.eqb a b && startswith p0 s.
Proof.
  unfold startswith; simpl.
  destruct (ascii_dec a b) as [->|Hne].
  - now rewrite Ascii.eqb_refl.
  - destruct (Ascii.eqb_spec a b); [contradiction|reflexivity].
Qed.

Lemma startswith_app (p0 s : string) : startswith p0 (p0 ++ s) = true.
Proof.
  induction p0 as [|a p0 IH]; simpl.
  - apply startswith_nil.
  - rewrite startswith_cons, Ascii.eqb_refl. exact IH.
Qed.

Lemma find_from_unfold (sub s : string) (i : Z) :
  find_from sub s i
  = if startswith sub s then i
    else match s with
         | EmptyString => -1
         | String _ s' => find_from sub s' (i + 1)
         end.
Proof. destruct s; reflexivity. Qed.

Lemma find_from_range (sub s : string) (i : Z) :
  find_from sub s i = -1
  \/ i <= find_from sub s i <= i + Z.of_nat (String.length s).
Proof.
  revert i; induction s as [|c s IH]; intros i; rewrite find_from_unfold.
  - destruct (startswith sub ""); [right; simpl; lia | now left].
  - destruct (startswith sub (String c s)).
    + right. simpl String.length. lia.
    + destruct (IH (i + 1)) as [H|H]; [now left|right].
      simpl String.length. lia.
Qed.

Lemma find_range (s sub : string) :
  find s sub = -1 \/ 0 <= find s sub <= Z.of_nat (String.length s).
Proof. unfold find. destruct (find_from_range sub s 0); [now left|right; lia]. Qed.

Lemma find_from_app (sub u v : string) (i : Z) :
  0 <= i -> 0 <= find_from sub (u ++ sub ++ v) i.
Proof.
  revert i; induction u as [|c u IH]; intros i Hi; rewrite find_from_unfold.
  - simpl. now rewrite startswith_app.
  - destruct (startswith sub (String c u ++ sub ++ v)); [exact Hi|].
    simpl. apply IH. lia.
Qed.

Lemma contains_app (sub u v : string) :
  contains (u ++ sub ++ v) sub = true.
Proof.
  unfold contains, find. apply Z.leb_le. now apply find_from_app.
Qed.

(** A replacement leaves alone a string in which [old] does not occur. *)
Lemma replace_go_absent (old new s : string) (i : Z) :
  0 <= i -> find_from old s i = -1 -> replace_go old new O s = s.
Proof.
  revert i; induction s as [|c s IH]; intros i Hi Hf; [reflexivity|].
  rewrite find_from_unfold in Hf. simpl.
  destruct (startswith old (String c s)); [lia|].
  f_equal. apply (IH (i + 1)); [lia | exact Hf].
Qed.

Lemma replace_absent (s old new : string) :
  old <> "" -> find s old = -1 -> replace s old new = s.
Proof.
  intros Hne Hf. destruct old as [|a old]; [contradiction|].
  unfold replace. apply (replace_go_absent _ _ _ 0); [lia | exact Hf].
Qed.

(** A string that lacks a character of [sub] does not contain [sub]. *)
Lemma startswith_has_char (c : ascii) (sub s : string) :
  startswith sub s = true -> has_char c sub = true -> has_char c s = true.
Proof.
  revert s; induction sub as [|a sub IH]; intros s Hp Hc; [discriminate|].
  destruct s as [|b s]; [discriminate|].
  rewrite startswith_cons in Hp. apply andb_true_iff in Hp as [Hab Hp].
  apply Ascii.eqb_eq in Hab; subst b. simpl in *.
  destruct (Ascii.eqb c a); [reflexivity|]. simpl in *. now apply IH.
Qed.

Lemma find_from_lacking (c : ascii) (sub s : string) (i : Z) :
  has_char c sub = true -> has_char c s = false ->
  find_from sub s i = -1.
Proof.
  intros Hsub. revert i; induction s as [|b s IH]; intros i Hs;
    rewrite find_from_unfold.
  - destruct (startswith sub "") eqn:Hp; [|reflexivity].
    now rewrite (startswith_has_char c _ _ Hp Hsub) in Hs.
  - destruct (startswith sub (String b s)) eqn:Hp.
    + now rewrite (startswith_has_char c _ _ Hp Hsub) in Hs.
    + apply IH. simpl in Hs. now apply orb_false_iff in Hs as [_ Hs].
Qed.

Lemma contains_lacking (c : ascii) (s sub : string) :
  has_char c sub = true -> has_char c s = false ->
  contains s sub = false.
Proof.
  intros Hsub Hs. unfold contains, find.
  now rewrite (find_from_lacking c sub s 0 Hsub Hs).
Qed.

Lemma has_char_app (c : ascii) (s t : string) :
  has_char c (s ++ t) = has_char c s || has_char c t.
Proof.
  induction s as [|a s IH]; simpl; [reflexivity|].
  now rewrite IH, orb_assoc.
Qed.

Lemma replace_go_cons (old new : string) (c : ascii) (s : string) :
  replace_go old new O (String c s)
  = if startswith old (String c s)
    then new ++ replace_go old new (Nat.pred (String.length old)) s
    else String c (replace_go old new O s).
Proof. reflexivity. Qed.

(** Replacing a one-character [old] by a string without that character
    leaves no occurrence of it. *)
Lemma replace_char_gone (a : ascii) (new s : string) :
  has_char a new = false ->
  has_char a (replace s (String a "") new) = false.
Proof.
  intros Hnew. unfold replace.
  induction s as [|b s IH]; [reflexivity|]. rewrite replace_go_cons.
  rewrite startswith_cons, startswith_nil, andb_true_r.
  destruct (Ascii.eqb a b) eqn:Hab.
  - change (Nat.pred (String.length (String a ""))) with O.
    rewrite has_char_app, Hnew, IH. reflexivity.
  - simpl has_char. now rewrite Hab, IH.
Qed.

Lemma has_char_lstrip (c : ascii) (s : string) :
  has_char c s = false -> has_char c (lstrip s) = false.
Proof.
  induction s as [|a s IH]; intros H; [reflexivity|]. simpl.
  destruct (is_space a); [|exact H].
  apply IH. simpl in H. now apply orb_false_iff in H as [_ H].
Qed.

Lemma has_char_rstrip (c : ascii) (s : string) :
  has_char c s = false -> has_char c (rstrip s) = false.
Proof.
  induction s as [|a s IH]; intros H; [reflexivity|].
  simpl in H. apply orb_false_iff in H as [Ha H]. specialize (IH H).
  simpl. destruct (rstrip s) as [|b r].
  - destruct (is_space a); [reflexivity|]. simpl. now rewrite Ha.
  - simpl in *. now rewrite Ha, IH.
Qed.

Lemma has_char_strip (c : ascii) (s : string) :
  has_char c s = false -> has_char c (strip s) = false.
Proof. intros H. unfold strip. now apply has_char_rstrip, has_char_lstrip. Qed.

End StringFacts.

(* ================================================================== *)
(** * Post-processing: results *)
(* ================================================================== *)

Section Postprocessing.

Import PyStr.

Lemma LF_has_line_feed : has_char (chr 10) LF = true.
Proof. reflexivity. Qed.

Lemma replace_LF_clean (s : string) :
  has_char (chr 10) (replace s LF " ") = false.
Proof. apply (replace_char_gone (chr 10) " " s). reflexivity. Qed.

Lemma postprocess_no_line_feed (s : string) :
  has_char (chr 10) (postprocess s) = false.
Proof. unfold postprocess. apply replace_LF_clean. Qed.

Lemma postprocess_batch_no_line_feed (s : string) :
  has_char (chr 10) (postprocess_batch s) = false.
Proof. unfold postprocess_batch. apply replace_LF_clean. Qed.

Lemma replace_go_length_le (old : string) (skip : nat) (s : string) :
  (String.length (replace_go old "" skip s) <= String.length s)%nat.
Proof.
  revert skip; induction s as [|c s IH]; intros skip; [simpl; lia|].
  destruct skip as [|n].
  - rewrite replace_go_cons. destruct (startswith old (String c s)).
    + simpl. specialize (IH (Nat.pred (String.length old))). lia.
    + simpl. specialize (IH O). lia.
  - simpl. specialize (IH n). lia.
Qed.

(** Removing a marker that occurs shortens the string. *)
Lemma replace_go_length_lt (old s : string) (i : Z) :
  old <> "" -> find_from old s i <> -1 ->
  (String.length (replace_go old "" O s) < String.length s)%nat.
Proof.
  intros Hne. revert i; induction s as [|c s IH]; intros i Hf;
    rewrite find_from_unfold in Hf.
  - destruct old; [contradiction|]. now destruct Hf.
  - rewrite replace_go_cons. destruct (startswith old (String c s)).
    + simpl. pose proof (replace_go_length_le
                           old (Nat.pred (String.length old)) s). lia.
    + simpl. specialize (IH (i + 1) Hf). lia.
Qed.

Lemma append_length (s t : string) :
  String.length (s ++ t) = (String.length s + String.length t)%nat.
Proof. induction s; simpl; [reflexivity|]. now rewrite IHs. Qed.

Lemma replace_LF_length (s : string) :
  String.length (replace s LF " ") = String.length s.
Proof.
  unfold replace, LF. induction s as [|c s IH]; [reflexivity|].
  rewrite replace_go_cons. destruct (startswith _ _).
  - change (Nat.pred (String.length (String (chr 10) ""))) with O.
    rewrite append_length, IH. reflexivity.
  - simpl. now rewrite IH.
Qed.

(** Where the processed text still holds a padding marker, a second pass
    changes it. *)
Lemma postprocess_changes_marked (s : string) :
  find (postprocess s) PAD_MARKER <> -1 ->
  postprocess (postprocess s) <> postprocess s.
Proof.
  intros Hf Heq.
  assert (Hlen : (String.length (postprocess (postprocess s))
                  < String.length (postprocess s))%nat).
  { unfold postprocess at 1. rewrite replace_LF_length.
    apply (replace_go_length_lt PAD_MARKER _ 0); [discriminate | exact Hf]. }
  rewrite Heq in Hlen. lia.
Qed.

End Postprocessing.




(* ================================================================== *)
(** * Stop-token truncation: results *)
(* ================================================================== *)

Section Truncation.

Import PyStr.

Lemma substring_nil (n m : nat) : substring n m "" = "".
Proof. destruct n, m; reflexivity. Qed.

Lemma substring_all (s : string) : substring 0 (String.length s) s = s.
Proof. induction s as [|c s IH]; simpl; [reflexivity | now rewrite IH]. Qed.

Lemma drop_last_substring (s : string) (n m : nat) :
  (n + m <= String.length s)%nat ->
  drop_last (substring n m s) = substring n (Nat.pred m) s.
Proof.
  revert n m; induction s as [|c s IH]; intros n m Hle.
  - now rewrite !substring_nil.
  - destruct n as [|n].
    + destruct m as [|m]; [reflexivity|].
      destruct m as [|m]; [destruct s; reflexivity|].
      simpl in Hle. specialize (IH O (S m)). simpl Nat.pred in *.
      destruct s as [|c' s]; [simpl in Hle; lia|].
      change (substring 0 (S (S m)) (String c (String c' s)))
        with (String c (substring 0 (S m) (String c' s))).
      change (substring 0 (S m) (String c (String c' s)))
        with (String c (substring 0 m (String c' s))).
      rewrite <- IH by (simpl in *; lia). reflexivity.
    + simpl in Hle. simpl. apply IH. lia.
Qed.

Lemma drop_last_length (s : string) :
  String.length (drop_last s) = Nat.pred (String.length s).
Proof.
  induction s as [|c s IH]; [reflexivity|].
  destruct s as [|c' s]; [reflexivity|].
  change (drop_last (String c (String c' s)))
    with (String c (drop_last (String c' s))).
  simpl String.length in *. rewrite IH. reflexivity.
Qed.

Lemma clamp_index_range (len i : Z) :
  0 <= len -> 0 <= clamp_index len i <= len.
Proof. intros H. unfold clamp_index. destruct (Z.ltb_spec i 0); lia. Qed.

(** [s[start:-1]] is [s[start:]] without its last character. *)
Lemma slice_to_minus_one (s : string) (start : option Z) :
  slice s start (Some (-1)) = drop_last (slice s start None).
Proof.
  unfold slice.
  set (len := Z.of_nat (String.length s)).
  set (lo := match start with
             | Some i => clamp_index len i
             | None => 0
             end).
  assert (Hlo : 0 <= lo <= len).
  { subst lo. destruct start; [apply clamp_index_range|]; subst len; lia. }
  clearbody lo. subst len.
  rewrite drop_last_substring by lia.
  f_equal. unfold clamp_index. change (-1 <? 0) with true. cbv iota. lia.
Qed.

Lemma stop_index_absent (stop text : string) :
  stop <> "" -> find text stop = -1 ->
  stop_index (Some stop) text = Some (-1).
Proof.
  intros Hne Hf. destruct stop; [contradiction|]. simpl. now rewrite Hf.
Qed.

Lemma slice_all (s : string) : slice s None None = s.
Proof.
  unfold slice. simpl. rewrite Z.sub_0_r, Nat2Z.id. apply substring_all.
Qed.

End Truncation.

(** C10, as stated, fails: what is emitted is not the decoded text without
    its last character.  The batch driver first cuts the text at the
    continuation-begin marker and removes the markers; the interactive driver
    still replaces line feeds. *)
Lemma stop_token_absent_output_differs :
  PyStr.find "The sky<c-begin> is blue" "X" = -1
  /\ batch_gen_field (Some "X") "The sky<c-begin> is blue" = "is blu"
  /\ batch_gen_field (Some "X") "The sky<c-begin> is blue"
     <> drop_last "The sky<c-begin> is blue"
  /\ interactive_output (Some "X") ("a" ++ PyStr.LF ++ "bc") = "a b"
  /\ interactive_output (Some "X") ("a" ++ PyStr.LF ++ "bc")
     <> drop_last ("a" ++ PyStr.LF ++ "bc").
Proof.
  repeat split; try reflexivity; vm_compute; discriminate.
Qed.

(** C10, amended: in both drivers, when a non-empty stop_token is configured
    but does not occur in the decoded text, the end index of the truncating
    slice is the search result -1, so the slice is the one taken without a
    stop token less its final character: the decoded text less its final
    character in the interactive driver, the part from the
    continuation-begin marker on less its final character in the batch
    driver.  The emitted output is the driver's post-processing of that
    slice, and a non-empty decoded text does not pass the interactive
    truncation unchanged. *)
Theorem stop_token_absent_drops_last_char (stop text : string) :
  stop <> "" ->
  PyStr.find text stop = -1 ->
  stop_index (Some stop) text = Some (-1)
  /\ truncate_interactive (Some stop) text = drop_last text
  /\ interactive_output (Some stop) text = postprocess (drop_last text)
  /\ truncate_batch (Some stop) text = drop_last (truncate_batch None text)
  /\ batch_gen_field (Some stop) text
     = PyStr.strip (postprocess_batch (drop_last (truncate_batch None text)))
  /\ (text <> "" -> truncate_interactive (Some stop) text <> text).
Proof.
  intros Hne Hf.
  pose proof (stop_index_absent stop text Hne Hf) as Hidx.
  assert (Hi : truncate_interactive (Some stop) text = drop_last text).
  { unfold truncate_interactive. rewrite Hidx, slice_to_minus_one.
    now rewrite slice_all. }
  assert (Hb : truncate_batch (Some stop) text
               = drop_last (truncate_batch None text)).
  { unfold truncate_batch. rewrite Hidx. apply slice_to_minus_one. }
  split; [exact Hidx|]. split; [exact Hi|].
  split; [unfold interactive_output; now rewrite Hi|].
  split; [exact Hb|].
  split; [unfold batch_gen_field; now rewrite Hb|].
  intros Hnonempty Heq. rewrite Hi in Heq.
  apply (f_equal String.length) in Heq. rewrite drop_last_length in Heq.
  destruct text; [contradiction | simpl in Heq; lia].
Qed.

Lemma stop_token_absent_drops_last_char_witness :
  truncate_interactive (Some "X") "Hello world" = "Hello worl"
  /\ batch_gen_field (Some "X") "The sky<c-begin> is blue" = "is blu".
Proof.
  destruct (stop_token_absent_drops_last_char "X" "Hello world")
    as [_ [H1 _]]; [discriminate | reflexivity |].
  destruct (stop_token_absent_drops_last_char "X" "The sky<c-begin> is blue")
    as [_ [_ [_ [_ [H2 _]]]]]; [discriminate | reflexivity |].
  split; [rewrite H1 | rewrite H2]; reflexivity.
Defined.

(* ================================================================== *)
(** * The two driver loops, event by event *)
(* ================================================================== *)

Section Loops.

Variable G : Type.
Variable tokenizer : Tokenizer.
Variable model : Model G.
Variable d : device.
Variable args : Args.

Lemma C_BEGIN_SUFFIX_eq : C_BEGIN_SUFFIX = C_BEGIN.
Proof. reflexivity. Qed.

(** The slice [[:100]] acts on the rows of the tensor, of which there is
    one: every token id is kept. *)
Lemma encode_prompts_cons (title : string) (titles : list string) :
  encode_prompts tokenizer (title :: titles)
  = [encode tokenizer (title ++ C_BEGIN)] :: encode_prompts tokenizer titles.
Proof. unfold encode_prompts. simpl. now rewrite C_BEGIN_SUFFIX_eq. Qed.

Lemma encode_prompts_all_tokens (titles : list string) :
  encode_prompts tokenizer titles
  = map (fun title => [encode tokenizer (title ++ C_BEGIN)]) titles.
Proof.
  induction titles as [|t ts IH]; [reflexivity|].
  now rewrite encode_prompts_cons, IH.
Qed.

Lemma skipn_cons_nth {A : Type} (i : nat) (l : list A) (x : A)
      (xs : list A) :
  skipn i l = x :: xs -> nth_error l i = Some x /\ skipn (S i) l = xs.
Proof.
  revert l; induction i as [|i IH]; intros l H.
  - destruct l; [discriminate|]. simpl in H. inversion H. now split.
  - destruct l as [|y l]; [discriminate|]. simpl in H.
    destruct (IH l H) as [H1 H2]. now split.
Qed.

Lemma model_generate_run (e_p : tensor) (w : world G) :
  returns_a_sequence model ->
  e_p <> [] ->
  exists out seq w',
    model_generate model d args e_p w = (Ok out, w')
    /\ nth_error out 0 = Some seq
    /\ trace w' = (trace w ++ [EvGenerate e_p (gen_config args) out])%list.
Proof.
  intros Hne Hep. unfold model_generate, bind, emit, ret.
  specialize (Hne (gen_config args) e_p (rng_of d w) Hep).
  destruct (generate model (gen_config args) e_p (rng_of d w))
    as [out g] eqn:Hg.
  simpl in Hne. destruct out as [|seq out]; [contradiction|].
  exists (seq :: out), seq. eexists. split; [reflexivity|].
  split; [reflexivity|]. destruct d; reflexivity.
Qed.

(** On a column of text cells the two comprehensions succeed. *)
Lemma ref_content_cells_text (contents : list string) :
  ref_content_cells (map CellStr contents) = Ok (ref_contents contents).
Proof.
  unfold ref_content_cells, ref_contents.
  induction contents as [|c cs IH]; [reflexivity|].
  simpl. simpl in IH. now rewrite IH.
Qed.

Lemma encode_prompt_cells_text (titles : list string) :
  encode_prompt_cells tokenizer (map CellStr titles)
  = Ok (encode_prompts tokenizer titles).
Proof.
  unfold encode_prompt_cells, encode_prompts.
  induction titles as [|t ts IH]; [reflexivity|].
  simpl. simpl in IH. now rewrite IH.
Qed.

Lemma file_gen_loop_trace (fact_raw : list cell)
      (ref_content : list string) :
  returns_a_sequence model ->
  forall (titles contents : list string) (i : nat) (w : world G),
    List.length titles = List.length contents ->
    skipn i fact_raw = map CellStr titles ->
    skipn i ref_content = ref_contents contents ->
    exists (items : list (tensor * list Z)) (w' : world G),
      List.length items = List.length titles
      /\ Forall first_row items
      /\ file_gen_loop tokenizer model d args fact_raw ref_content i
                       (encode_prompts tokenizer titles) w = (Ok tt, w')
      /\ trace w'
         = (trace w
            ++ flat_map (row_events tokenizer args)
                        (combine (combine titles contents) items))%list.
Proof.
  intros Hne titles.
  induction titles as [|t ts IH]; intros contents i w Hlen Hf Hr.
  - exists [], w. repeat split; [constructor|]. simpl.
    now rewrite app_nil_r.
  - destruct contents as [|c cs]; [discriminate|].
    injection Hlen as Hlen.
    simpl in Hf. apply skipn_cons_nth in Hf as [Hfi Hf].
    unfold ref_contents in Hr. simpl in Hr.
    apply skipn_cons_nth in Hr as [Hri Hr].
    rewrite encode_prompts_cons.
    destruct (model_generate_run [encode tokenizer (t ++ C_BEGIN)] w Hne)
      as (out & seq & w1 & Hrun & Hseq & Htr); [discriminate|].
    set (row := output_row tokenizer (stop_token args) (t, c, seq)).
    set (w2 := Build_world (np_rng w1) (torch_rng w1) (cuda_rng w1)
                           (trace w1 ++ [EvWrite row])).
    destruct (IH cs (S i) w2 Hlen Hf Hr)
      as (items & w' & Hn & Hall & Hloop & Htr').
    exists ((out, seq) :: items), w'.
    split; [simpl; now rewrite Hn|].
    split; [constructor; [exact Hseq | exact Hall]|].
    split.
    + simpl. unfold bind at 1. rewrite Hrun.
      unfold bind at 1. unfold index at 1. rewrite Hseq. unfold ret at 1.
      unfold bind at 1. unfold index at 1. simpl nth_error.
      unfold ret at 1.
      unfold bind at 1. unfold index at 1. rewrite Hfi. unfold ret at 1.
      unfold bind at 1. unfold lift at 1. cbn [cell_strip].
      unfold bind at 1. unfold index at 1. rewrite Hri. unfold ret at 1.
      unfold bind at 1. unfold emit at 1. exact Hloop.
    + rewrite Htr'. subst w2. simpl. rewrite Htr, <- !app_assoc.
      reflexivity.
Qed.

Lemma prompt_gen_loop_trace :
  returns_a_sequence model ->
  forall (lines : list string) (w : world G),
    exists (items : list (tensor * list Z)) (w' : world G),
      List.length items = List.length lines
      /\ Forall first_row items
      /\ prompt_gen_loop tokenizer model d args lines w
         = (Raise EOFError, w')
      /\ trace w'
         = (trace w
            ++ flat_map (prompt_events tokenizer args) (combine lines items)
            ++ [EvInput "Prompt Text>>"])%list.
Proof.
  intros Hne lines.
  induction lines as [|text rest IH]; intros w.
  - exists []. eexists. repeat split; constructor.
  - set (w0 := Build_world (np_rng w) (torch_rng w) (cuda_rng w)
                           (trace w ++ [EvInput "Prompt Text>>"])).
    destruct (model_generate_run (encode_pt tokenizer text) w0 Hne)
      as (out & seq & w1 & Hrun & Hseq & Htr); [discriminate|].
    set (line := interactive_output (stop_token args)
                                    (decode tokenizer seq)).
    set (w2 := Build_world (np_rng w1) (torch_rng w1) (cuda_rng w1)
                           (trace w1 ++ [EvPrint line])).
    destruct (IH w2) as (items & w' & Hn & Hall & Hloop & Htr').
    exists ((out, seq) :: items), w'.
    split; [simpl; now rewrite Hn|].
    split; [constructor; [exact Hseq | exact Hall]|].
    split.
    + simpl. unfold bind at 1. unfold emit at 1. fold w0.
      unfold bind at 1. rewrite Hrun.
      unfold bind at 1. unfold index at 1. rewrite Hseq. unfold ret at 1.
      unfold bind at 1. unfold emit at 1. exact Hloop.
    + rewrite Htr'. subst w2. simpl. rewrite Htr. subst w0. simpl.
      rewrite <- !app_assoc. reflexivity.
Qed.

Variable env : Env G.

(** For a well-formed table, [file_gen] is its loop run after the read,
    the open and the header, followed by the close. *)
Lemma file_gen_start (data : DataFrame) (titles contents : list string)
      (w : world G) :
  read_csv env (prompt_file args) = Ok data ->
  well_formed data titles contents ->
  open_file env (output_file args) "w+" = Ok tt ->
  file_gen env tokenizer model d args w
  = bind (file_gen_loop tokenizer model d args (map CellStr titles)
                        (ref_contents contents) 0
                        (encode_prompts tokenizer titles))
         (fun _ => emit EvClose)
         (Build_world
            (np_rng w) (torch_rng w) (cuda_rng w)
            (((trace w ++ [EvReadCsv (prompt_file args)])
              ++ [EvOpen (output_file args) "w+"])
             ++ [EvWrite HEADER])).
Proof.
  intros Hread (Ht & Hc & Hlen) Hopen.
  unfold file_gen. unfold bind at 1. unfold emit at 1.
  unfold bind at 1. unfold lift at 1. rewrite Hread.
  unfold bind at 1. unfold column at 1. rewrite Ht. unfold ret at 1.
  unfold bind at 1. unfold column at 1. rewrite Hc. unfold ret at 1.
  unfold bind at 1. unfold lift at 1. rewrite ref_content_cells_text.
  unfold bind at 1. unfold lift at 1. rewrite encode_prompt_cells_text.
  unfold bind at 1. unfold emit at 1. cbv beta iota. simpl trace.
  unfold bind at 1. unfold lift at 1. rewrite Hopen.
  unfold bind at 1. unfold emit at 1. cbv beta iota. simpl trace.
  reflexivity.
Qed.

Lemma file_gen_trace (data : DataFrame) (titles contents : list string)
      (w : world G) :
  returns_a_sequence model ->
  read_csv env (prompt_file args) = Ok data ->
  well_formed data titles contents ->
  open_file env (output_file args) "w+" = Ok tt ->
  exists (items : list (tensor * list Z)) (w' : world G),
    List.length items = List.length titles
    /\ Forall first_row items
    /\ file_gen env tokenizer model d args w = (Ok tt, w')
    /\ trace w'
       = (trace w
          ++ [EvReadCsv (prompt_file args);
              EvOpen (output_file args) "w+"; EvWrite HEADER]
          ++ flat_map (row_events tokenizer args)
                      (combine (combine titles contents) items)
          ++ [EvClose])%list.
Proof.
  intros Hne Hread Hwf Hopen.
  rewrite (file_gen_start data titles contents w Hread Hwf Hopen).
  destruct Hwf as (Ht & Hc & Hlen).
  set (w0 := Build_world
               (np_rng w) (torch_rng w) (cuda_rng w)
               (((trace w ++ [EvReadCsv (prompt_file args)])
                 ++ [EvOpen (output_file args) "w+"])
                ++ [EvWrite HEADER])).
  destruct (file_gen_loop_trace (map CellStr titles) (ref_contents contents)
                                Hne titles contents 0 w0 Hlen
                                eq_refl eq_refl)
    as (items & w1 & Hn & Hall & Hloop & Htr).
  exists items. eexists.
  split; [exact Hn|]. split; [exact Hall|]. split.
  - unfold bind at 1. rewrite Hloop. unfold emit. reflexivity.
  - simpl. rewrite Htr. subst w0. simpl. rewrite <- !app_assoc.
    reflexivity.
Qed.

End Loops.

(* ================================================================== *)
(** * What a run writes, prints and sends to the model *)
(* ================================================================== *)

Section Observations.

Variable G : Type.
Variable tokenizer : Tokenizer.
Variable args : Args.

Lemma written_app (w w' : world G) (tr : list event) :
  trace w' = (trace w ++ tr)%list ->
  written w'
  = (written w
     ++ flat_map (fun e => match e with EvWrite s => [s] | _ => [] end)
                 tr)%list.
Proof. intros H. unfold written. now rewrite H, flat_map_app. Qed.

Lemma printed_app (w w' : world G) (tr : list event) :
  trace w' = (trace w ++ tr)%list ->
  printed w'
  = (printed w
     ++ flat_map (fun e => match e with EvPrint s => [s] | _ => [] end)
                 tr)%list.
Proof. intros H. unfold printed. now rewrite H, flat_map_app. Qed.

Lemma generation_calls_app (w w' : world G) (tr : list event) :
  trace w' = (trace w ++ tr)%list ->
  generation_calls w'
  = (generation_calls w
     ++ flat_map (fun e => match e with
                           | EvGenerate i _ o => [(i, o)]
                           | _ => []
                           end) tr)%list.
Proof. intros H. unfold generation_calls. now rewrite H, flat_map_app. Qed.

Lemma row_events_written (titles contents : list string)
      (items : list (tensor * list Z)) :
  flat_map (fun e => match e with EvWrite s => [s] | _ => [] end)
           (flat_map (row_events tokenizer args)
                     (combine (combine titles contents) items))
  = map (output_row tokenizer (stop_token args))
        (combine (combine titles contents) (map snd items)).
Proof.
  revert contents items; induction titles as [|t ts IH];
    intros contents items; [reflexivity|].
  destruct contents as [|c cs]; [reflexivity|].
  destruct items as [|[out seq] items]; [reflexivity|].
  simpl. now rewrite IH.
Qed.

Lemma row_events_inputs (titles contents : list string)
      (items : list (tensor * list Z)) :
  List.length titles = List.length contents ->
  List.length items = List.length titles ->
  map fst
      (flat_map (fun e => match e with
                          | EvGenerate i _ o => [(i, o)]
                          | _ => []
                          end)
                (flat_map (row_events tokenizer args)
                          (combine (combine titles contents) items)))
  = map (fun title => encode_pt tokenizer (title ++ C_BEGIN)) titles.
Proof.
  revert contents items; induction titles as [|t ts IH];
    intros contents items Hc Hi; [reflexivity|].
  destruct contents as [|c cs]; [discriminate|].
  destruct items as [|[out seq] items]; [discriminate|].
  simpl in *. rewrite IH by lia. reflexivity.
Qed.

Lemma prompt_events_inputs (lines : list string)
      (items : list (tensor * list Z)) :
  List.length items = List.length lines ->
  map fst
      (flat_map (fun e => match e with
                          | EvGenerate i _ o => [(i, o)]
                          | _ => []
                          end)
                (flat_map (prompt_events tokenizer args)
                          (combine lines items)
                 ++ [EvInput "Prompt Text>>"]))
  = map (encode_pt tokenizer) lines.
Proof.
  revert items; induction lines as [|t ts IH]; intros items Hi.
  - reflexivity.
  - destruct items as [|[out seq] items]; [discriminate|].
    simpl in *. rewrite IH by lia. reflexivity.
Qed.


End Observations.

Section StripFacts.

Import PyStr.

Lemma lstrip_app (t m : string) (a : ascii) :
  is_space a = false ->
  lstrip (t ++ String a m) = lstrip t ++ String a m.
Proof.
  intros Ha. induction t as [|c t IH]; simpl.
  - now rewrite Ha.
  - destruct (is_space c); [exact IH | reflexivity].
Qed.

Lemma rstrip_app (u m : string) :
  m <> "" -> rstrip m = m -> rstrip (u ++ m) = u ++ m.
Proof.
  intros Hne Hm. induction u as [|c u IH]; [exact Hm|].
  simpl. rewrite IH.
  destruct (u ++ m) eqn:E; [|reflexivity].
  destruct u; simpl in E; [contradiction | discriminate].
Qed.

Lemma strip_before_marker (t : string) :
  strip (t ++ C_BEGIN) = lstrip t ++ C_BEGIN.
Proof.
  unfold strip, C_BEGIN.
  rewrite lstrip_app by reflexivity.
  apply rstrip_app; [discriminate | reflexivity].
Qed.

End StripFacts.

(* ================================================================== *)
(** * The batch driver: results *)
(* ================================================================== *)


Lemma toy_model_returns_a_sequence : returns_a_sequence toy_model.
Proof.
  intros cfg input_ids g Hne. destruct input_ids; [contradiction|].
  simpl. discriminate.
Qed.

Lemma toy_table_well_formed :
  well_formed toy_table
              ["The sky"; "Hello world"]
              ["was blue and clear for miles."; "and  hello again"].
Proof. repeat split. Qed.


(** C5, as stated, fails: the row written for the title "The sky" has the
    [prompt] field "The sky<c-begin>"; the markers are removed from the
    generated text only. *)
Lemma prompt_field_keeps_marker :
  written (snd (main toy_env toy_args (toy_world 7)))
  = [ HEADER;
      format_row "The sky<c-begin>" "The sky"
                 "was blue and clear for miles." "blue2";
      format_row "Hello world<c-begin>" "Hello world"
                 "and hello again" "blue3" ]
  /\ PyStr.contains "The sky<c-begin>" C_BEGIN = true.
Proof. split; vm_compute; reflexivity. Qed.

(** Nor is the generated text always free of the marker: the removal is a
    single pass. *)
Example gen_field_may_keep_marker :
  batch_gen_field None "x<c-begin><c-<c-begin>begin>" = "<c-begin>".
Proof. reflexivity. Qed.

(** C5, amended: in the batch driver, the [prompt] field written for an
    input row is the encoded prompt decoded again, with only the surrounding
    whitespace trimmed; marker removal is applied to the generated text, not
    to it.  With a codec that decodes what it encoded, the field is the
    left-trimmed title followed by the continuation-begin marker, which it
    therefore contains. *)
Theorem prompt_field_ends_with_marker
        (G : Type) (env : Env G) (tokenizer : Tokenizer) (model : Model G)
        (d : device) (args : Args) (data : DataFrame)
        (titles contents : list string) (w : world G) :
  round_trip tokenizer ->
  returns_a_sequence model ->
  read_csv env (prompt_file args) = Ok data ->
  well_formed data titles contents ->
  open_file env (output_file args) "w+" = Ok tt ->
  exists (seqs : list (list Z)) (w' : world G),
    file_gen env tokenizer model d args w = (Ok tt, w')
    /\ List.length seqs = List.length titles
    /\ written w'
       = (written w
          ++ HEADER
             :: map (fun item : string * string * list Z =>
                       let '(title, content, seq) := item in
                       format_row
                         (PyStr.lstrip title ++ C_BEGIN)
                         (PyStr.strip title)
                         (ref_field content)
                         (batch_gen_field (stop_token args)
                                          (decode tokenizer seq)))
                    (combine (combine titles contents) seqs))%list
    /\ (forall title,
           prompt_field tokenizer title = PyStr.lstrip title ++ C_BEGIN
           /\ PyStr.contains (prompt_field tokenizer title) C_BEGIN = true).
Proof.
  intros Hrt Hne Hread Hwf Hopen.
  assert (Hfield : forall title,
             prompt_field tokenizer title = PyStr.lstrip title ++ C_BEGIN).
  { intros title. unfold prompt_field. rewrite Hrt.
    apply strip_before_marker. }
  destruct (file_gen_trace G tokenizer model d args env data titles contents
                           w Hne Hread Hwf Hopen)
    as (items & w' & Hn & _ & Hrun & Htr).
  exists (map snd items), w'.
  split; [exact Hrun|]. split; [now rewrite length_map|]. split.
  - rewrite (written_app G w w' _ Htr). f_equal. simpl. f_equal.
    rewrite flat_map_app, row_events_written. simpl. rewrite app_nil_r.
    apply map_ext. intros [[title content] seq]. unfold output_row.
    now rewrite Hfield.
  - intros title. split; [apply Hfield|]. rewrite Hfield.
    apply (contains_app C_BEGIN (PyStr.lstrip title) "").
Qed.

Lemma char_tokenizer_round_trip : round_trip char_tokenizer.
Proof.
  intros s. unfold char_tokenizer. simpl. rewrite map_map.
  rewrite (map_ext _ (fun c => c)).
  - rewrite map_id. apply string_of_list_ascii_of_string.
  - intros c. now rewrite Nat2Z.id, ascii_nat_embedding.
Qed.

Lemma prompt_field_ends_with_marker_witness :
  exists (seqs : list (list Z)) (w' : world Z),
    file_gen toy_env char_tokenizer toy_model Cpu toy_args (toy_world 7)
    = (Ok tt, w')
    /\ List.length seqs = 2%nat
    /\ written w'
       = (written (toy_world 7)
          ++ HEADER
             :: map (fun item : string * string * list Z =>
                       let '(title, content, seq) := item in
                       format_row
                         (PyStr.lstrip title ++ C_BEGIN)
                         (PyStr.strip title)
                         (ref_field content)
                         (batch_gen_field (stop_token toy_args)
                                          (decode char_tokenizer seq)))
                    (combine (combine ["The sky"; "Hello world"]
                                      ["was blue and clear for miles.";
                                       "and  hello again"]) seqs))%list
    /\ (forall title,
           prompt_field char_tokenizer title = PyStr.lstrip title ++ C_BEGIN
           /\ PyStr.contains (prompt_field char_tokenizer title) C_BEGIN
              = true).
Proof.
  apply (prompt_field_ends_with_marker
           Z toy_env char_tokenizer toy_model Cpu toy_args toy_table
           ["The sky"; "Hello world"]
           ["was blue and clear for miles."; "and  hello again"]
           (toy_world 7)).
  - exact char_tokenizer_round_trip.
  - exact toy_model_returns_a_sequence.
  - reflexivity.
  - exact toy_table_well_formed.
  - reflexivity.
Defined.

(** C2 fails on the code: the slice [[:100]] is taken on a tensor of shape
    (1, n), so it keeps the one row with all its token ids.  A title of 113
    characters reaches the generation routine as 122 token ids. *)
Theorem long_prompt_not_truncated :
  map fst (generation_calls (snd (main long_env toy_args (toy_world 7))))
  = [[encode char_tokenizer (long_title ++ C_BEGIN)]]
  /\ List.length (encode char_tokenizer (long_title ++ C_BEGIN)) = 122%nat
  /\ encode_prompts char_tokenizer [long_title]
     <> [[firstn 100 (encode char_tokenizer (long_title ++ C_BEGIN))]].
Proof.
  split; [vm_compute; reflexivity|].
  split; [vm_compute; reflexivity|].
  vm_compute. discriminate.
Qed.

(* ================================================================== *)
(** * The padding passage: results *)
(* ================================================================== *)

(** C3 fails on the code.  The source builds the padding: the table
    [PREPROCESSING_FUNCTIONS] maps the family "xlnet" to
    [prepare_xlnet_input], which with no padding_text prepends the default
    passage to "Hello world".  But no driver consults the table: in a run of
    [main] for that family the model receives encode("Hello world") alone,
    which is not encode(passage + "Hello world"). *)
Theorem xlnet_prompt_sent_without_padding :
  dict_get PREPROCESSING_FUNCTIONS (model_type xlnet_args)
  = Some prepare_xlnet_input_fn
  /\ fst (prepare_xlnet_input xlnet_args "Hello world")
     = PADDING_TEXT ++ "Hello world"
  /\ map fst (generation_calls (snd (main toy_env xlnet_args (toy_world 7))))
     = [encode_pt char_tokenizer "Hello world"]
  /\ encode_pt char_tokenizer "Hello world"
     <> encode_pt char_tokenizer (PADDING_TEXT ++ "Hello world").
Proof.
  split; [reflexivity|]. split; [reflexivity|].
  split; [vm_compute; reflexivity|]. vm_compute. discriminate.
Qed.

(** The same for every family, codec and model: the interactive driver
    sends encode(line) for each line the operator types, the batch driver
    encode(title + continuation-begin marker) for each title; neither
    reads [model_type] or [padding_text]. *)
Lemma drivers_send_prompts_unpadded
      (G : Type) (env : Env G) (tokenizer : Tokenizer) (model : Model G)
      (d : device) (args : Args) (data : DataFrame)
      (titles contents : list string) (w : world G) :
  returns_a_sequence model ->
  read_csv env (prompt_file args) = Ok data ->
  well_formed data titles contents ->
  open_file env (output_file args) "w+" = Ok tt ->
  (exists w',
      prompt_gen env tokenizer model d args w = (Raise EOFError, w')
      /\ map fst (generation_calls w')
         = (map fst (generation_calls w)
            ++ map (encode_pt tokenizer) (operator_lines env))%list)
  /\ (exists w',
         file_gen env tokenizer model d args w = (Ok tt, w')
         /\ map fst (generation_calls w')
            = (map fst (generation_calls w)
               ++ map (fun title => encode_pt tokenizer (title ++ C_BEGIN))
                      titles)%list).
Proof.
  intros Hne Hread Hwf Hopen. split.
  - destruct (prompt_gen_loop_trace G tokenizer model d args Hne
                                    (operator_lines env) w)
      as (items & w' & Hn & _ & Hrun & Htr).
    exists w'. split; [exact Hrun|].
    rewrite (generation_calls_app G w w' _ Htr), map_app.
    f_equal. now apply prompt_events_inputs.
  - destruct (file_gen_trace G tokenizer model d args env data titles
                             contents w Hne Hread Hwf Hopen)
      as (items & w' & Hn & _ & Hrun & Htr).
    destruct Hwf as (_ & _ & Hlen).
    exists w'. split; [exact Hrun|].
    rewrite (generation_calls_app G w w' _ Htr), map_app.
    f_equal. simpl. rewrite flat_map_app. simpl. rewrite app_nil_r.
    now apply row_events_inputs.
Qed.

(* ================================================================== *)
(** * Startup: results *)
(* ================================================================== *)

Lemma dict_get_absent {V : Type} (d : list (string * V)) (key : string) :
  ~ In key (dict_keys d) -> dict_get d key = None.
Proof.
  induction d as [|[k' v] d IH]; intros H; [reflexivity|].
  simpl in *. destruct (String.eqb_spec key k') as [->|Hne].
  - exfalso. apply H. now left.
  - apply IH. intros Hin. apply H. now right.
Qed.

(** C7: for every model-family selector that, once lower-cased as [main]
    does before the lookup, is not a key of [MODEL_CLASSES], startup raises
    [KeyError] and performs no effect at all on the way: no codec or model
    load, no file read or opened, no generation call. *)
Theorem unsupported_family_fails_before_loading
        (G : Type) (env : Env G) (args : Args) (w : world G) :
  ~ In (PyStr.lower (model_type args)) (dict_keys MODEL_CLASSES) ->
  fst (main env args w) = Raise KeyError
  /\ trace (snd (main env args w)) = trace w
  /\ generation_calls (snd (main env args w)) = generation_calls w
  /\ written (snd (main env args w)) = written w.
Proof.
  intros Hin. apply dict_get_absent in Hin.
  unfold main. unfold bind at 1. unfold set_seed at 1.
  cbv beta iota zeta.
  change (model_type (with_model_type args (PyStr.lower (model_type args))))
    with (PyStr.lower (model_type args)).
  rewrite Hin. unfold raise. simpl. repeat split.
Qed.

Lemma unsupported_family_fails_before_loading_witness :
  fst (main toy_env (with_model_type toy_args "BERT") (toy_world 7))
  = Raise KeyError
  /\ trace (snd (main toy_env (with_model_type toy_args "BERT") (toy_world 7)))
     = trace (toy_world 7)
  /\ generation_calls
       (snd (main toy_env (with_model_type toy_args "BERT") (toy_world 7)))
     = generation_calls (toy_world 7)
  /\ written
       (snd (main toy_env (with_model_type toy_args "BERT") (toy_world 7)))
     = written (toy_world 7).
Proof.
  apply (unsupported_family_fails_before_loading
           Z toy_env (with_model_type toy_args "BERT") (toy_world 7)).
  simpl. intuition discriminate.
Defined.

(** The lookup is made on the lower-cased selector: "GPT2" is a supported
    family, and its run starts with the two loads. *)
Example upper_case_family_is_supported :
  fst (main toy_env (with_model_type toy_args "GPT2") (toy_world 7)) = Ok tt
  /\ firstn 2 (trace (snd (main toy_env (with_model_type toy_args "GPT2")
                                (toy_world 7))))
     = [EvLoadTokenizer GPT2Tokenizer "gpt2";
        EvLoadModel GPT2LMHeadModel "gpt2"].
Proof. split; vm_compute; reflexivity. Qed.

(* ================================================================== *)
(** * Reproducibility: results *)
(* ================================================================== *)

Section Determinism.

Variable G : Type.
Variable d : device.

Lemma same_for_refl (w : world G) : same_for d w w.
Proof. now split. Qed.

Lemma deterministic_ret {A : Type} (a : A) : deterministic d (@ret G A a).
Proof. intros w1 w2 H. now split. Qed.

Lemma deterministic_raise {A : Type} (e : exn) :
  deterministic d (@raise G A e).
Proof. intros w1 w2 H. now split. Qed.

Lemma deterministic_lift {A : Type} (r : result A) :
  deterministic d (@lift G A r).
Proof. intros w1 w2 H. now split. Qed.

Lemma deterministic_emit (e : event) : deterministic d (@emit G e).
Proof.
  intros w1 w2 [Ht Hr]. split; [reflexivity|]. split.
  - simpl. now rewrite Ht.
  - destruct d; simpl in *; exact Hr.
Qed.

Lemma deterministic_bind {A B : Type} (c : M G A) (f : A -> M G B) :
  deterministic d c ->
  (forall a, deterministic d (f a)) ->
  deterministic d (bind c f).
Proof.
  intros Hc Hf w1 w2 H. destruct (Hc w1 w2 H) as [Hfst Hsame].
  unfold bind.
  destruct (c w1) as [r1 w1'], (c w2) as [r2 w2']. simpl in *. subst r2.
  destruct r1 as [a|e]; [now apply Hf | now split].
Qed.

Lemma deterministic_index {A : Type} (xs : list A) (i : nat) :
  deterministic d (@index G A xs i).
Proof.
  unfold index. destruct (nth_error xs i);
    [apply deterministic_ret | apply deterministic_raise].
Qed.

Lemma deterministic_column (data : DataFrame) (name : string) :
  deterministic d (@column G data name).
Proof.
  unfold column. destruct (dict_get data name);
    [apply deterministic_ret | apply deterministic_raise].
Qed.

Variable tokenizer : Tokenizer.
Variable model : Model G.
Variable args : Args.

(** The generation routine reads the generator of the device the input is
    on, and nothing else of the world. *)
Lemma deterministic_model_generate (e_p : tensor) :
  deterministic d (model_generate model d args e_p).
Proof.
  unfold model_generate. apply deterministic_bind.
  - intros w1 w2 [Ht Hr]. rewrite Hr.
    destruct (generate model (gen_config args) e_p (rng_of d w2))
      as [out g].
    split; [reflexivity|]. split; destruct d; simpl; congruence.
  - intros out. apply deterministic_bind;
      [apply deterministic_emit | intros _; apply deterministic_ret].
Qed.

Lemma deterministic_file_gen_loop (fact_raw : list cell)
      (ref_content : list string)
      (encoded_prompt : list tensor) (i : nat) :
  deterministic d (file_gen_loop tokenizer model d args fact_raw
                                 ref_content i encoded_prompt).
Proof.
  revert i; induction encoded_prompt as [|e_p rest IH]; intros i.
  - apply deterministic_ret.
  - simpl.
    apply deterministic_bind; [apply deterministic_model_generate|].
    intros out. apply deterministic_bind; [apply deterministic_index|].
    intros seq. apply deterministic_bind; [apply deterministic_index|].
    intros row0. apply deterministic_bind; [apply deterministic_index|].
    intros fact. apply deterministic_bind; [apply deterministic_lift|].
    intros fact_text.
    apply deterministic_bind; [apply deterministic_index|].
    intros ref. apply deterministic_bind; [apply deterministic_emit|].
    intros _. apply IH.
Qed.

Lemma deterministic_prompt_gen_loop (lines : list string) :
  deterministic d (prompt_gen_loop tokenizer model d args lines).
Proof.
  induction lines as [|text rest IH]; simpl.
  - apply deterministic_bind; [apply deterministic_emit|].
    intros _. apply deterministic_raise.
  - apply deterministic_bind; [apply deterministic_emit|].
    intros _.
    apply deterministic_bind; [apply deterministic_model_generate|].
    intros out. apply deterministic_bind; [apply deterministic_index|].
    intros seq. apply deterministic_bind; [apply deterministic_emit|].
    intros _. apply IH.
Qed.

Variable env : Env G.

Lemma deterministic_file_gen :
  deterministic d (file_gen env tokenizer model d args).
Proof.
  unfold file_gen.
  apply deterministic_bind; [apply deterministic_emit|]. intros _.
  apply deterministic_bind; [apply deterministic_lift|]. intros data.
  apply deterministic_bind; [apply deterministic_column|]. intros titles.
  apply deterministic_bind; [apply deterministic_column|]. intros refs.
  apply deterministic_bind; [apply deterministic_lift|]. intros ref_content.
  apply deterministic_bind; [apply deterministic_lift|]. intros encoded.
  apply deterministic_bind; [apply deterministic_emit|]. intros _.
  apply deterministic_bind; [apply deterministic_lift|]. intros _.
  apply deterministic_bind; [apply deterministic_emit|]. intros _.
  apply deterministic_bind; [apply deterministic_file_gen_loop|].
  intros _. apply deterministic_emit.
Qed.

Lemma deterministic_prompt_gen :
  deterministic d (prompt_gen env tokenizer model d args).
Proof. unfold prompt_gen. apply deterministic_prompt_gen_loop. Qed.

End Determinism.

(** After [set_seed], two worlds agree on the generator of the device the
    run generates on, provided a visible accelerator is counted. *)
Lemma set_seed_same_for (G : Type) (env : Env G) (args : Args)
      (w1 w2 : world G) :
  (cuda_is_available env = true -> 0 < cuda_device_count env) ->
  trace w1 = trace w2 ->
  same_for (if cuda_is_available env && negb (no_cuda args)
            then Cuda else Cpu)
           (snd (set_seed env args (cuda_device_count env) w1))
           (snd (set_seed env args (cuda_device_count env) w2)).
Proof.
  intros Hcuda Ht. split; [exact Ht|].
  destruct (cuda_is_available env); simpl; [|reflexivity].
  destruct (no_cuda args); simpl; [reflexivity|].
  specialize (Hcuda eq_refl).
  destruct (Z.gtb_spec (cuda_device_count env) 0); [reflexivity | lia].
Qed.

Lemma bind_set_seed (G : Type) (env : Env G) (args : Args) (n_gpu : Z)
      {B : Type} (f : unit -> M G B) (w : world G) :
  bind (set_seed env args n_gpu) f w
  = f tt (snd (set_seed env args n_gpu w)).
Proof. reflexivity. Qed.

(** Everything [main] does after seeding depends on the world only through
    the trace and the generator of the chosen device. *)
Lemma main_after_seed (G : Type) (env : Env G) (args : Args)
      (w1 w2 : world G) :
  same_for (if cuda_is_available env && negb (no_cuda args)
            then Cuda else Cpu)
           (snd (set_seed env args (cuda_device_count env) w1))
           (snd (set_seed env args (cuda_device_count env) w2)) ->
  fst (main env args w1) = fst (main env args w2)
  /\ same_for (if cuda_is_available env && negb (no_cuda args)
               then Cuda else Cpu)
              (snd (main env args w1)) (snd (main env args w2)).
Proof.
  unfold main. cbv zeta. rewrite !bind_set_seed.
  generalize (snd (set_seed env args (cuda_device_count env) w1)).
  generalize (snd (set_seed env args (cuda_device_count env) w2)).
  set (d := if cuda_is_available env && negb (no_cuda args)
            then Cuda else Cpu).
  intros b a Hab.
  destruct (dict_get MODEL_CLASSES _) as [[mc tc]|];
    [|exact (deterministic_raise G d KeyError a b Hab)].
  refine (deterministic_bind G d _ _ (deterministic_emit G d _) _ a b Hab).
  intros _.
  refine (deterministic_bind G d _ _ (deterministic_lift G d _) _).
  intros tokenizer.
  refine (deterministic_bind G d _ _ (deterministic_emit G d _) _).
  intros _.
  refine (deterministic_bind G d _ _ (deterministic_lift G d _) _).
  intros model.
  destruct (no_file _);
    [apply deterministic_prompt_gen | apply deterministic_file_gen].
Qed.

(** C9: for a fixed seed, fixed model and codec and a fixed request, two
    runs of the pipeline produce the same generated token sequences, and
    hence the same rows and printed lines, whatever state the generators
    were in when each run started: [set_seed] resets the generator every
    sampling draw comes from before any generation. *)
Theorem seeded_runs_agree
        (G : Type) (env : Env G) (args : Args) (w1 w2 : world G) :
  (cuda_is_available env = true -> 0 < cuda_device_count env) ->
  trace w1 = trace w2 ->
  fst (main env args w1) = fst (main env args w2)
  /\ trace (snd (main env args w1)) = trace (snd (main env args w2))
  /\ generation_calls (snd (main env args w1))
     = generation_calls (snd (main env args w2))
  /\ written (snd (main env args w1)) = written (snd (main env args w2))
  /\ printed (snd (main env args w1)) = printed (snd (main env args w2)).
Proof.
  intros Hcuda Ht.
  destruct (main_after_seed G env args w1 w2
              (set_seed_same_for G env args w1 w2 Hcuda Ht))
    as [Hfst [Htr _]].
  split; [exact Hfst|]. split; [exact Htr|].
  unfold generation_calls, written, printed. rewrite Htr. repeat split.
Qed.

Lemma seeded_runs_agree_witness :
  fst (main toy_env toy_args (toy_world 7))
  = fst (main toy_env toy_args (toy_world 1000))
  /\ trace (snd (main toy_env toy_args (toy_world 7)))
     = trace (snd (main toy_env toy_args (toy_world 1000)))
  /\ generation_calls (snd (main toy_env toy_args (toy_world 7)))
     = generation_calls (snd (main toy_env toy_args (toy_world 1000)))
  /\ written (snd (main toy_env toy_args (toy_world 7)))
     = written (snd (main toy_env toy_args (toy_world 1000)))
  /\ printed (snd (main toy_env toy_args (toy_world 7)))
     = printed (snd (main toy_env toy_args (toy_world 1000))).
Proof.
  apply (seeded_runs_agree Z toy_env toy_args (toy_world 7) (toy_world 1000)).
  - simpl. intros H. discriminate H.
  - reflexivity.
Defined.

(** The generated sequences do depend on the generator: without seeding,
    the batch driver started from two generator states writes different
    rows. *)
Example unseeded_runs_differ :
  written (snd (file_gen toy_env char_tokenizer toy_model Cpu toy_args
                         (toy_world 7)))
  <> written (snd (file_gen toy_env char_tokenizer toy_model Cpu toy_args
                            (toy_world 1000))).
Proof. vm_compute. discriminate. Qed.

(* ================================================================== *)
(** * Further properties: the length resolver *)
(* ================================================================== *)

(** X1: resolving an already resolved length against the same capacity
    changes nothing. *)
Theorem adjust_length_to_model_idempotent (requested capacity : Z) :
  adjust_length_to_model (adjust_length_to_model requested capacity) capacity
  = adjust_length_to_model requested capacity.
Proof.
  assert (H0 : 0 <= adjust_length_to_model requested capacity)
    by length_cases.
  assert (H1 : 0 < capacity ->
               adjust_length_to_model requested capacity <= capacity)
    by (intros Hc; length_cases).
  generalize dependent (adjust_length_to_model requested capacity).
  intros r H0 H1. length_cases.
Qed.

(** X2: for a non-negative request and a model with a positive capacity,
    the resolved length is the smaller of the two. *)
Theorem adjust_length_to_model_min (requested capacity : Z) :
  0 <= requested -> 0 < capacity ->
  adjust_length_to_model requested capacity = Z.min requested capacity.
Proof. intros Hr Hc. length_cases. Qed.

Lemma adjust_length_to_model_min_witness :
  adjust_length_to_model 20 1024 = Z.min 20 1024
  /\ adjust_length_to_model 5000 1024 = Z.min 5000 1024.
Proof.
  split; apply adjust_length_to_model_min; lia.
Defined.

(* ================================================================== *)
(** * Further properties: where the truncating slice cuts *)
(* ================================================================== *)

Section Cuts.

Import PyStr.

Lemma startswith_split (sub s : string) :
  startswith sub s = true -> exists rest, s = sub ++ rest.
Proof.
  revert s; induction sub as [|a sub IH]; intros s H.
  - now exists s.
  - destruct s as [|b s]; [discriminate|].
    rewrite startswith_cons in H. apply andb_true_iff in H as [Hab H].
    apply Ascii.eqb_eq in Hab; subst b.
    destruct (IH s H) as [rest ->]. now exists rest.
Qed.

(** A successful search splits the string at the index it returns. *)
Lemma find_from_split (sub s : string) (i : Z) :
  find_from sub s i <> -1 ->
  exists pre rest,
    s = pre ++ sub ++ rest
    /\ find_from sub s i = i + Z.of_nat (String.length pre).
Proof.
  revert i; induction s as [|c s IH]; intros i H;
    rewrite find_from_unfold in *.
  - destruct (startswith sub "") eqn:Hp; [|contradiction].
    destruct (startswith_split _ _ Hp) as [rest Hrest].
    exists "", rest. split; [exact Hrest | simpl; lia].
  - destruct (startswith sub (String c s)) eqn:Hp.
    + destruct (startswith_split _ _ Hp) as [rest Hrest].
      exists "", rest. split; [exact Hrest | simpl; lia].
    + destruct (IH (i + 1) H) as (pre & rest & Hs & Hf).
      exists (String c pre), rest. split; [simpl; now rewrite Hs|].
      rewrite Hf. simpl String.length. lia.
Qed.

Lemma find_split (s sub : string) :
  find s sub <> -1 ->
  exists pre rest,
    s = pre ++ sub ++ rest /\ find s sub = Z.of_nat (String.length pre).
Proof.
  intros H. destruct (find_from_split sub s 0 H) as (pre & rest & Hs & Hf).
  exists pre, rest. split; [exact Hs|]. unfold find. rewrite Hf. lia.
Qed.

Lemma substring_zero (n : nat) (s : string) : substring n 0 s = "".
Proof.
  revert n; induction s as [|c s IH]; intros n; destruct n; try reflexivity.
  simpl. apply IH.
Qed.

Lemma substring_prefix (a b : string) :
  substring 0 (String.length a) (a ++ b) = a.
Proof.
  induction a as [|c a IH]; simpl.
  - apply substring_zero.
  - now rewrite IH.
Qed.

Lemma substring_skip (a b : string) (m : nat) :
  substring (String.length a) m (a ++ b) = substring 0 m b.
Proof. induction a as [|c a IH]; simpl; [reflexivity | exact IH]. Qed.

Lemma slice_until (a b : string) :
  slice (a ++ b) None (Some (Z.of_nat (String.length a))) = a.
Proof.
  unfold slice, clamp_index. rewrite append_length.
  destruct (Z.ltb_spec (Z.of_nat (String.length a)) 0); [lia|].
  replace (Z.to_nat (Z.min _ _ - 0)) with (String.length a) by lia.
  apply substring_prefix.
Qed.

Lemma slice_from (a b : string) :
  slice (a ++ b) (Some (Z.of_nat (String.length a))) None = b.
Proof.
  unfold slice, clamp_index. rewrite append_length.
  destruct (Z.ltb_spec (Z.of_nat (String.length a)) 0); [lia|].
  replace (Z.to_nat (_ - _)) with (String.length b) by lia.
  replace (Z.to_nat (Z.min _ _)) with (String.length a) by lia.
  rewrite substring_skip. apply substring_all.
Qed.

Lemma slice_empty (s : string) (i j : Z) :
  clamp_index (Z.of_nat (String.length s)) j
  <= clamp_index (Z.of_nat (String.length s)) i ->
  slice s (Some i) (Some j) = "".
Proof.
  intros H. unfold slice.
  replace (Z.to_nat (_ - _)) with O by lia. apply substring_zero.
Qed.

Lemma substring_last (s : string) :
  substring (Nat.pred (String.length s)) 1 s = last_char s.
Proof.
  induction s as [|c s IH]; [reflexivity|].
  destruct s as [|c' s]; [reflexivity|].
  exact IH.
Qed.

Lemma slice_last (s : string) : slice s (Some (-1)) None = last_char s.
Proof.
  destruct s as [|c s]; [reflexivity|].
  unfold slice, clamp_index. change (-1 <? 0) with true. cbv iota.
  rewrite <- substring_last.
  f_equal; simpl String.length; lia.
Qed.

End Cuts.

Lemma stop_index_found (stop text : string) :
  stop <> "" -> stop_index (Some stop) text = Some (PyStr.find text stop).
Proof. intros H. destruct stop; [contradiction | reflexivity]. Qed.

Lemma stop_index_falsy (stop : option string) (text : string) :
  PyStr.truthy stop = false -> stop_index stop text = None.
Proof.
  destruct stop as [[|c s]|]; simpl; intros H; try reflexivity.
  discriminate.
Qed.

(** X3: in the interactive driver, when the stop token occurs in the decoded
    text, the truncation keeps exactly what precedes its first occurrence:
    the decoded text is the kept part, then the stop token, then a rest. *)
Theorem truncate_interactive_cuts_before_stop (stop text : string) :
  stop <> "" ->
  PyStr.find text stop <> -1 ->
  exists rest,
    text = truncate_interactive (Some stop) text ++ stop ++ rest
    /\ Z.of_nat (String.length (truncate_interactive (Some stop) text))
       = PyStr.find text stop.
Proof.
  intros Hne Hf.
  destruct (find_split text stop Hf) as (pre & rest & Hs & Hi).
  assert (Hcut : truncate_interactive (Some stop) text = pre).
  { unfold truncate_interactive. rewrite (stop_index_found _ _ Hne), Hi.
    rewrite Hs at 1. apply slice_until. }
  exists rest. rewrite Hcut. split; [exact Hs | now rewrite Hi].
Qed.

Lemma truncate_interactive_cuts_before_stop_witness :
  exists rest,
    "Hello world. Bye" = truncate_interactive (Some ".") "Hello world. Bye"
                         ++ "." ++ rest
    /\ Z.of_nat (String.length
                   (truncate_interactive (Some ".") "Hello world. Bye"))
       = PyStr.find "Hello world. Bye" ".".
Proof.
  apply (truncate_interactive_cuts_before_stop "." "Hello world. Bye").
  - discriminate.
  - vm_compute. discriminate.
Defined.

(** X4: in the batch driver with no stop token, when the continuation-begin
    marker occurs in the decoded text, the slice is the text from the first
    occurrence of the marker to the end: everything before the marker, the
    prompt, is left out. *)
Theorem truncate_batch_starts_at_marker (stop : option string)
        (text : string) :
  PyStr.truthy stop = false ->
  PyStr.find text C_BEGIN <> -1 ->
  exists pre continuation,
    text = pre ++ C_BEGIN ++ continuation
    /\ Z.of_nat (String.length pre) = PyStr.find text C_BEGIN
    /\ truncate_batch stop text = C_BEGIN ++ continuation.
Proof.
  intros Hstop Hf.
  destruct (find_split text C_BEGIN Hf) as (pre & rest & Hs & Hi).
  exists pre, rest. split; [exact Hs|]. split; [now rewrite Hi|].
  unfold truncate_batch. rewrite (stop_index_falsy _ _ Hstop), Hi.
  rewrite Hs at 1. apply slice_from.
Qed.

Lemma truncate_batch_starts_at_marker_witness :
  exists pre continuation,
    "The sky<c-begin> is blue" = pre ++ C_BEGIN ++ continuation
    /\ Z.of_nat (String.length pre)
       = PyStr.find "The sky<c-begin> is blue" C_BEGIN
    /\ truncate_batch None "The sky<c-begin> is blue"
       = C_BEGIN ++ continuation.
Proof.
  apply (truncate_batch_starts_at_marker None "The sky<c-begin> is blue").
  - reflexivity.
  - vm_compute. discriminate.
Defined.

(** X5: in the batch driver with no stop token, when the decoded text does
    not hold the continuation-begin marker, the search result -1 becomes the
    start index of the slice: only the last character of the decoded text is
    kept. *)
Theorem truncate_batch_without_marker (stop : option string) (text : string) :
  PyStr.truthy stop = false ->
  PyStr.find text C_BEGIN = -1 ->
  truncate_batch stop text = last_char text
  /\ batch_gen_field stop text
     = PyStr.strip (postprocess_batch (last_char text)).
Proof.
  intros Hstop Hf.
  assert (H : truncate_batch stop text = last_char text).
  { unfold truncate_batch. rewrite (stop_index_falsy _ _ Hstop), Hf.
    apply slice_last. }
  split; [exact H|]. unfold batch_gen_field. now rewrite H.
Qed.

Lemma truncate_batch_without_marker_witness :
  truncate_batch None "The sky is blue" = last_char "The sky is blue"
  /\ batch_gen_field None "The sky is blue"
     = PyStr.strip (postprocess_batch (last_char "The sky is blue")).
Proof.
  apply (truncate_batch_without_marker None "The sky is blue");
    reflexivity.
Defined.

(** X6: in the batch driver, when the stop token occurs in the decoded text
    and its first occurrence is not after that of the continuation-begin
    marker (or the marker does not occur), the slice is empty and so is the
    [gen] field: a stop token inside the prompt silences the row. *)
Theorem stop_before_marker_empties_gen (stop text : string) :
  stop <> "" ->
  PyStr.find text stop <> -1 ->
  PyStr.find text C_BEGIN = -1
  \/ PyStr.find text stop <= PyStr.find text C_BEGIN ->
  truncate_batch (Some stop) text = ""
  /\ batch_gen_field (Some stop) text = "".
Proof.
  intros Hne Hf Hord.
  assert (H : truncate_batch (Some stop) text = "").
  { unfold truncate_batch. rewrite (stop_index_found _ _ Hne).
    apply slice_empty.
    destruct (find_split text stop Hf) as (pre & rest & Hs & Hi).
    assert (Hlen : Z.of_nat (String.length text)
                   = Z.of_nat (String.length pre)
                     + Z.of_nat (String.length stop)
                     + Z.of_nat (String.length rest)).
    { rewrite Hs at 1. rewrite !append_length. lia. }
    assert (Hpos : 0 < Z.of_nat (String.length stop)).
    { destruct stop; [contradiction | simpl String.length; lia]. }
    pose proof (find_range text C_BEGIN) as Hm.
    unfold PyStr.clamp_index.
    destruct (Z.ltb_spec (PyStr.find text stop) 0); [lia|].
    destruct (Z.ltb_spec (PyStr.find text C_BEGIN) 0); lia. }
  split; [exact H|]. unfold batch_gen_field. now rewrite H.
Qed.

Lemma stop_before_marker_empties_gen_witness :
  truncate_batch (Some ".") "Mr. Sky<c-begin> is blue." = ""
  /\ batch_gen_field (Some ".") "Mr. Sky<c-begin> is blue." = "".
Proof.
  apply (stop_before_marker_empties_gen "." "Mr. Sky<c-begin> is blue.").
  - discriminate.
  - vm_compute. discriminate.
  - right. vm_compute. discriminate.
Defined.

(* ================================================================== *)
(** * Further properties: the post-processing *)
(* ================================================================== *)

Lemma replace_marker_length_le (s old : string) :
  (String.length (PyStr.replace s old "") <= String.length s)%nat.
Proof.
  destruct old as [|a old].
  - simpl. induction s as [|c s IH]; simpl; lia.
  - apply replace_go_length_le.
Qed.

Lemma replace_marker_length_lt (s old : string) :
  old <> "" -> PyStr.find s old <> -1 ->
  (String.length (PyStr.replace s old "") < String.length s)%nat.
Proof.
  intros Hne Hf. destruct old as [|a old]; [contradiction|].
  apply (replace_go_length_lt _ _ 0 Hne Hf).
Qed.

Lemma no_line_feed_absent (s : string) :
  has_char (PyStr.chr 10) s = false -> PyStr.find s PyStr.LF = -1.
Proof.
  intros H. apply (find_from_lacking (PyStr.chr 10)); [reflexivity | exact H].
Qed.

(** X7: the shared post-processing never lengthens a text, and the texts it
    leaves unchanged are exactly those with no padding marker and no line
    feed. *)
Theorem postprocess_fixed_points (s : string) :
  (String.length (postprocess s) <= String.length s)%nat
  /\ (postprocess s = s
      <-> PyStr.find s PAD_MARKER = -1
          /\ has_char (PyStr.chr 10) s = false).
Proof.
  assert (Hlen : String.length (postprocess s)
                 = String.length (PyStr.replace s PAD_MARKER "")).
  { unfold postprocess. apply replace_LF_length. }
  split; [rewrite Hlen; apply replace_marker_length_le|].
  split.
  - intros H. split.
    + destruct (Z.eq_dec (PyStr.find s PAD_MARKER) (-1)) as [E|E]; [exact E|].
      pose proof (replace_marker_length_lt s PAD_MARKER
                    ltac:(discriminate) E) as Hlt.
      rewrite <- Hlen, H in Hlt. lia.
    + rewrite <- H. apply postprocess_no_line_feed.
  - intros [Hpad Hlf]. unfold postprocess.
    rewrite (replace_absent s PAD_MARKER ""); [|discriminate|exact Hpad].
    apply replace_absent; [discriminate | now apply no_line_feed_absent].
Qed.

(** X8: the post-processing of the batch driver never lengthens a text, and
    the texts it leaves unchanged are exactly those with no padding marker,
    no continuation-begin marker and no line feed. *)
Theorem postprocess_batch_fixed_points (s : string) :
  (String.length (postprocess_batch s) <= String.length s)%nat
  /\ (postprocess_batch s = s
      <-> PyStr.find s PAD_MARKER = -1
          /\ PyStr.find s C_BEGIN = -1
          /\ has_char (PyStr.chr 10) s = false).
Proof.
  set (t := PyStr.replace s PAD_MARKER "").
  assert (Hlen : String.length (postprocess_batch s)
                 = String.length (PyStr.replace t C_BEGIN "")).
  { unfold postprocess_batch. apply replace_LF_length. }
  pose proof (replace_marker_length_le s PAD_MARKER) as H1. fold t in H1.
  pose proof (replace_marker_length_le t C_BEGIN) as H2.
  split; [lia|]. split.
  - intros H.
    assert (Hpad : PyStr.find s PAD_MARKER = -1).
    { destruct (Z.eq_dec (PyStr.find s PAD_MARKER) (-1)) as [E|E];
        [exact E|].
      pose proof (replace_marker_length_lt s PAD_MARKER
                    ltac:(discriminate) E) as Hlt.
      fold t in Hlt. rewrite H in Hlen. lia. }
    assert (Ht : t = s)
      by (apply replace_absent; [discriminate | exact Hpad]).
    split; [exact Hpad|]. split.
    + destruct (Z.eq_dec (PyStr.find s C_BEGIN) (-1)) as [E|E]; [exact E|].
      rewrite <- Ht in E.
      pose proof (replace_marker_length_lt t C_BEGIN
                    ltac:(discriminate) E) as Hlt.
      rewrite H in Hlen. rewrite Ht in *. lia.
    + rewrite <- H. apply postprocess_batch_no_line_feed.
  - intros (Hpad & Hbeg & Hlf). unfold postprocess_batch.
    rewrite (replace_absent s PAD_MARKER ""); [|discriminate|exact Hpad].
    rewrite (replace_absent s C_BEGIN ""); [|discriminate|exact Hbeg].
    apply replace_absent; [discriminate | now apply no_line_feed_absent].
Qed.

Lemma postprocess_fixed_points_witness :
  postprocess "The sky is blue" = "The sky is blue".
Proof.
  apply (proj2 (proj2 (postprocess_fixed_points "The sky is blue"))).
  split; reflexivity.
Defined.

Lemma postprocess_batch_fixed_points_witness :
  postprocess_batch "is blue" = "is blue".
Proof.
  apply (proj2 (proj2 (postprocess_batch_fixed_points "is blue"))).
  repeat split.
Defined.

(* ================================================================== *)
(** * Further properties: trimming and the reference words *)
(* ================================================================== *)

Section Words.

Import PyStr.

Lemma rstrip_idempotent (s : string) : rstrip (rstrip s) = rstrip s.
Proof.
  induction s as [|c s IH]; [reflexivity|]. simpl.
  destruct (rstrip s) as [|d r] eqn:E.
  - destruct (is_space c) eqn:Hc; [reflexivity|]. simpl. now rewrite Hc.
  - change (rstrip (String c (String d r)))
      with (match rstrip (String d r) with
            | EmptyString =>
                if is_space c then EmptyString else String c EmptyString
            | r0 => String c r0
            end).
    now rewrite IH.
Qed.

Lemma lstrip_head (s : string) :
  match lstrip s with
  | EmptyString => True
  | String c _ => is_space c = false
  end.
Proof.
  induction s as [|c s IH]; simpl; [exact I|].
  destruct (is_space c) eqn:Hc; [exact IH | exact Hc].
Qed.

Lemma rstrip_keeps_head (c : ascii) (s : string) :
  is_space c = false -> exists r, rstrip (String c s) = String c r.
Proof.
  intros Hc. simpl. destruct (rstrip s) as [|d r].
  - rewrite Hc. now exists "".
  - now exists (String d r).
Qed.

Lemma strip_idempotent (s : string) : strip (strip s) = strip s.
Proof.
  unfold strip. pose proof (lstrip_head s) as Hh.
  destruct (lstrip s) as [|c t]; [reflexivity|].
  destruct (rstrip_keeps_head c t Hh) as [r Hr].
  rewrite Hr. simpl lstrip. rewrite Hh, <- Hr. apply rstrip_idempotent.
Qed.

Lemma has_space_char (a : ascii) (s : string) :
  is_space a = true -> has_space s = false -> has_char a s = false.
Proof.
  intros Ha. induction s as [|c s IH]; intros H; [reflexivity|].
  simpl in *. apply orb_false_iff in H as [Hc Hs].
  rewrite (IH Hs), orb_false_r.
  destruct (Ascii.eqb_spec a c) as [->|]; [congruence | reflexivity].
Qed.

Lemma has_space_of_list (l : list ascii) :
  has_space (string_of_list_ascii l) = existsb is_space l.
Proof. induction l as [|c l IH]; simpl; [reflexivity | now rewrite IH]. Qed.

Lemma existsb_rev_space (l : list ascii) :
  existsb is_space (rev l) = existsb is_space l.
Proof.
  induction l as [|c l IH]; [reflexivity|]. simpl.
  rewrite existsb_app, IH. simpl. rewrite orb_false_r. apply orb_comm.
Qed.

Lemma rev_string_word (cur : list ascii) :
  cur <> [] -> existsb is_space cur = false ->
  is_word (rev_string cur) = true.
Proof.
  intros Hne Hs. unfold is_word, rev_string.
  rewrite has_space_of_list, existsb_rev_space, Hs.
  destruct cur as [|c cur]; [contradiction|]. simpl rev.
  destruct (rev cur); reflexivity.
Qed.

Lemma split_go_words (s : string) (cur : list ascii) :
  existsb is_space cur = false ->
  Forall (fun w => is_word w = true) (split_go cur s).
Proof.
  revert cur; induction s as [|c s IH]; intros cur Hcur; simpl.
  - destruct cur as [|a cur]; simpl; [constructor|].
    constructor; [|constructor]. apply rev_string_word; [discriminate|].
    exact Hcur.
  - destruct (is_space c) eqn:Hc.
    + destruct cur as [|a cur]; simpl; [now apply IH|].
      constructor; [|now apply IH].
      apply rev_string_word; [discriminate | exact Hcur].
    + apply IH. simpl. now rewrite Hc.
Qed.

(** [split] yields words. *)
Lemma split_words (s : string) :
  Forall (fun w => is_word w = true) (split s).
Proof. apply split_go_words. reflexivity. Qed.

Lemma split_go_word (w rest : string) (cur : list ascii) :
  has_space w = false ->
  split_go cur (w ++ rest)
  = split_go (rev (list_ascii_of_string w) ++ cur)%list rest.
Proof.
  revert cur; induction w as [|c w IH]; intros cur H; [reflexivity|].
  simpl in H. apply orb_false_iff in H as [Hc Hw].
  simpl. rewrite Hc, (IH (c :: cur) Hw), <- app_assoc. reflexivity.
Qed.

Lemma flush_word (w : string) (rest : list string) :
  w <> "" -> flush (rev (list_ascii_of_string w)) rest = w :: rest.
Proof.
  intros Hne. unfold flush.
  destruct (rev (list_ascii_of_string w)) as [|a l] eqn:E.
  - apply (f_equal (@rev ascii)) in E. rewrite rev_involutive in E.
    destruct w; [contradiction | discriminate].
  - unfold rev_string. rewrite <- E, rev_involutive.
    now rewrite string_of_list_ascii_of_string.
Qed.

Lemma is_word_facts (w : string) :
  is_word w = true -> w <> "" /\ has_space w = false.
Proof.
  unfold is_word. intros H. apply andb_true_iff in H as [H1 H2].
  split.
  - intros ->. discriminate.
  - now destruct (has_space w).
Qed.

Lemma string_app_nil (s : string) : s ++ "" = s.
Proof. induction s as [|c s IH]; simpl; [reflexivity | now rewrite IH]. Qed.

(** Joining words with single spaces and splitting again gives the words. *)
Lemma split_join (ws : list string) :
  Forall (fun w => is_word w = true) ws -> split (join " " ws) = ws.
Proof.
  induction 1 as [|w ws Hw Hws IH]; [reflexivity|].
  destruct (is_word_facts w Hw) as [Hne Hsp].
  destruct ws as [|w2 ws].
  - simpl. unfold split. rewrite <- (string_app_nil w) at 1.
    rewrite (split_go_word w "" [] Hsp), app_nil_r. simpl split_go.
    now apply flush_word.
  - change (join " " (w :: w2 :: ws))
      with (w ++ String " " (join " " (w2 :: ws))).
    unfold split. rewrite (split_go_word w _ [] Hsp), app_nil_r.
    change (split_go ?c (String " " ?r)) with (flush c (split_go [] r)).
    rewrite (flush_word w _ Hne). f_equal. exact IH.
Qed.

Lemma split_lstrip (s : string) : split (lstrip s) = split s.
Proof.
  unfold split. induction s as [|c s IH]; [reflexivity|]. simpl.
  destruct (is_space c) eqn:Hc; [exact IH|]. simpl. now rewrite Hc.
Qed.

Lemma split_go_rstrip (s : string) (cur : list ascii) :
  split_go cur (rstrip s) = split_go cur s.
Proof.
  revert cur; induction s as [|c s IH]; intros cur; [reflexivity|].
  simpl. destruct (rstrip s) as [|d r] eqn:E.
  - destruct (is_space c) eqn:Hc.
    + rewrite <- (IH []). reflexivity.
    + simpl. rewrite Hc, <- (IH (c :: cur)). reflexivity.
  - simpl. destruct (is_space c) eqn:Hc.
    + now rewrite <- (IH []).
    + now rewrite <- (IH (c :: cur)).
Qed.

Lemma split_strip (s : string) : split (strip s) = split s.
Proof.
  unfold strip, split. rewrite split_go_rstrip. apply split_lstrip.
Qed.

Lemma rstrip_word (w : string) : has_space w = false -> rstrip w = w.
Proof.
  induction w as [|c w IH]; intros H; [reflexivity|].
  simpl in H. apply orb_false_iff in H as [Hc Hw].
  simpl. rewrite (IH Hw). destruct w; [now rewrite Hc | reflexivity].
Qed.

Lemma join_nonempty (w : string) (ws : list string) :
  w <> "" -> join " " (w :: ws) <> "".
Proof.
  intros Hne. destruct ws; simpl; [exact Hne|].
  destruct w; [contradiction | discriminate].
Qed.

Lemma strip_join (ws : list string) :
  Forall (fun w => is_word w = true) ws ->
  strip (join " " ws) = join " " ws.
Proof.
  intros H. unfold strip.
  assert (Hl : lstrip (join " " ws) = join " " ws).
  { destruct H as [|w ws Hw _]; [reflexivity|].
    destruct (is_word_facts w Hw) as [Hne Hsp].
    destruct w as [|c w]; [contradiction|].
    simpl in Hsp. apply orb_false_iff in Hsp as [Hc _].
    destruct ws; simpl; now rewrite Hc. }
  rewrite Hl. induction H as [|w ws Hw Hws IH]; [reflexivity|].
  destruct (is_word_facts w Hw) as [Hne Hsp].
  destruct ws as [|w2 ws]; [now apply rstrip_word|].
  change (join " " (w :: w2 :: ws))
    with (w ++ String " " (join " " (w2 :: ws))).
  change (w ++ String " " (join " " (w2 :: ws)))
    with (w ++ " " ++ join " " (w2 :: ws)).
  assert (H2 : lstrip (join " " (w2 :: ws)) = join " " (w2 :: ws)).
  { inversion Hws as [|? ? Hw2 _]; subst.
    destruct (is_word_facts w2 Hw2) as [Hne2 Hsp2].
    destruct w2 as [|c w2]; [contradiction|].
    simpl in Hsp2. apply orb_false_iff in Hsp2 as [Hc _].
    destruct ws; simpl; now rewrite Hc. }
  specialize (IH H2).
  assert (Hj : join " " (w2 :: ws) <> "").
  { inversion Hws as [|? ? Hw2 _]; subst.
    apply join_nonempty. apply (is_word_facts w2 Hw2). }
  replace (w ++ " " ++ join " " (w2 :: ws))
    with ((w ++ " ") ++ join " " (w2 :: ws)).
  - now apply rstrip_app.
  - clear. generalize (join " " (w2 :: ws)). intros t.
    induction w as [|c w IHw]; simpl; [reflexivity | now rewrite IHw].
Qed.

Lemma Forall_firstn_words (n : nat) (ws : list string) :
  Forall (fun w => is_word w = true) ws ->
  Forall (fun w => is_word w = true) (firstn n ws).
Proof.
  intros H. revert n; induction H as [|w ws Hw _ IH]; intros n.
  - destruct n; constructor.
  - destruct n; [constructor|]. simpl. constructor; [exact Hw | apply IH].
Qed.

Lemma join_lacks_char (a : ascii) (ws : list string) :
  is_space a = true -> a <> " "%char ->
  Forall (fun w => is_word w = true) ws ->
  has_char a (join " " ws) = false.
Proof.
  intros Ha Hsp H. induction H as [|w ws Hw Hws IH]; [reflexivity|].
  destruct (is_word_facts w Hw) as [_ Hw'].
  pose proof (has_space_char a w Ha Hw') as Hc.
  destruct ws as [|w2 ws]; [exact Hc|].
  change (join " " (w :: w2 :: ws))
    with (w ++ String " " (join " " (w2 :: ws))).
  rewrite has_char_app, Hc. simpl.
  destruct (Ascii.eqb_spec a " "); [contradiction | exact IH].
Qed.

End Words.

(** X9: the [ref] field of a row is the first 400 whitespace-separated
    words of the reference text joined by single spaces: splitting it gives
    those words back, at most 400 of them, and it holds no tab and no line
    feed. *)
Theorem ref_field_first_400_words (content : string) :
  ref_field content
  = PyStr.join " " (firstn 400 (PyStr.split content))
  /\ PyStr.split (ref_field content) = firstn 400 (PyStr.split content)
  /\ (List.length (PyStr.split (ref_field content)) <= 400)%nat
  /\ has_char (PyStr.chr 9) (ref_field content) = false
  /\ has_char (PyStr.chr 10) (ref_field content) = false.
Proof.
  pose proof (Forall_firstn_words 400 _ (split_words content)) as Hw.
  assert (Href : ref_field content
                 = PyStr.join " " (firstn 400 (PyStr.split content))).
  { unfold ref_field. rewrite split_strip. now apply strip_join. }
  rewrite Href. split; [reflexivity|].
  split; [now apply split_join|].
  split; [rewrite split_join by exact Hw; apply firstn_le_length|].
  split; apply join_lacks_char; try exact Hw; try reflexivity; discriminate.
Qed.

(** X10: the [gen] field of a row holds no line feed and has no whitespace
    left at either end: trimming it again changes nothing. *)
Theorem batch_gen_field_trimmed (stop : option string) (decoded : string) :
  has_char (PyStr.chr 10) (batch_gen_field stop decoded) = false
  /\ PyStr.strip (batch_gen_field stop decoded)
     = batch_gen_field stop decoded.
Proof.
  split.
  - apply has_char_strip, postprocess_batch_no_line_feed.
  - apply strip_idempotent.
Qed.

(* ================================================================== *)
(** * Further properties: what a run may add to the trace *)
(* ================================================================== *)

Section Emits.

Variable G : Type.
Variable P : event -> Prop.

Lemma emits_only_ret {A : Type} (a : A) : emits_only P (@ret G A a).
Proof. intros w. exists []. simpl. now rewrite app_nil_r. Qed.

Lemma emits_only_raise {A : Type} (e : exn) : emits_only P (@raise G A e).
Proof. intros w. exists []. simpl. now rewrite app_nil_r. Qed.

Lemma emits_only_lift {A : Type} (r : result A) : emits_only P (@lift G A r).
Proof. intros w. exists []. simpl. now rewrite app_nil_r. Qed.

Lemma emits_only_emit (e : event) : P e -> emits_only P (@emit G e).
Proof. intros He w. exists [e]. simpl. split; [reflexivity|]. now constructor. Qed.

Lemma emits_only_bind {A B : Type} (c : M G A) (f : A -> M G B) :
  emits_only P c ->
  (forall a, emits_only P (f a)) ->
  emits_only P (bind c f).
Proof.
  intros Hc Hf w. destruct (Hc w) as (tr1 & H1 & F1). unfold bind.
  destruct (c w) as [[a|e] w1]; simpl in *.
  - destruct (Hf a w1) as (tr2 & H2 & F2).
    exists (tr1 ++ tr2)%list. rewrite H2, H1, app_assoc.
    split; [reflexivity | now apply Forall_app].
  - now exists tr1.
Qed.

Lemma emits_only_index {A : Type} (xs : list A) (i : nat) :
  emits_only P (@index G A xs i).
Proof.
  unfold index. destruct (nth_error xs i);
    [apply emits_only_ret | apply emits_only_raise].
Qed.

Lemma emits_only_column (data : DataFrame) (name : string) :
  emits_only P (@column G data name).
Proof.
  unfold column. destruct (dict_get data name);
    [apply emits_only_ret | apply emits_only_raise].
Qed.

Lemma emits_only_set_seed (env : Env G) (args : Args) (n_gpu : Z) :
  emits_only P (set_seed env args n_gpu).
Proof. intros w. exists []. simpl. now rewrite app_nil_r. Qed.

Variable tokenizer : Tokenizer.
Variable model : Model G.
Variable d : device.
Variable args : Args.

Lemma emits_only_model_generate (e_p : tensor) :
  (forall out, P (EvGenerate e_p (gen_config args) out)) ->
  emits_only P (model_generate model d args e_p).
Proof.
  intros Hgen. unfold model_generate. apply emits_only_bind.
  - intros w.
    destruct (generate model (gen_config args) e_p (rng_of d w)) as [out g].
    exists []. simpl. rewrite app_nil_r. split; [|constructor].
    destruct d; reflexivity.
  - intros out. apply emits_only_bind;
      [apply emits_only_emit, Hgen | intros _; apply emits_only_ret].
Qed.

Hypothesis generation_allowed :
  forall e_p out, P (EvGenerate e_p (gen_config args) out).

Lemma emits_only_file_gen_loop (fact_raw : list cell)
      (ref_content : list string)
      (encoded_prompt : list tensor) (i : nat) :
  (forall row, P (EvWrite row)) ->
  emits_only P (file_gen_loop tokenizer model d args fact_raw ref_content i
                              encoded_prompt).
Proof.
  intros Hw. revert i; induction encoded_prompt as [|e_p rest IH]; intros i.
  - apply emits_only_ret.
  - simpl.
    apply emits_only_bind;
      [apply emits_only_model_generate, generation_allowed|].
    intros out. apply emits_only_bind; [apply emits_only_index|].
    intros seq. apply emits_only_bind; [apply emits_only_index|].
    intros row0. apply emits_only_bind; [apply emits_only_index|].
    intros fact. apply emits_only_bind; [apply emits_only_lift|].
    intros fact_text. apply emits_only_bind; [apply emits_only_index|].
    intros ref. apply emits_only_bind; [apply emits_only_emit, Hw|].
    intros _. apply IH.
Qed.

Lemma emits_only_file_gen (env : Env G) :
  (forall e, is_file_event e = true -> P e) ->
  emits_only P (file_gen env tokenizer model d args).
Proof.
  intros Hf. unfold file_gen.
  apply emits_only_bind; [now apply emits_only_emit, Hf|]. intros _.
  apply emits_only_bind; [apply emits_only_lift|]. intros data.
  apply emits_only_bind; [apply emits_only_column|]. intros titles.
  apply emits_only_bind; [apply emits_only_column|]. intros refs.
  apply emits_only_bind; [apply emits_only_lift|]. intros ref_content.
  apply emits_only_bind; [apply emits_only_lift|]. intros encoded.
  apply emits_only_bind; [now apply emits_only_emit, Hf|]. intros _.
  apply emits_only_bind; [apply emits_only_lift|]. intros _.
  apply emits_only_bind; [now apply emits_only_emit, Hf|]. intros _.
  apply emits_only_bind.
  - apply emits_only_file_gen_loop. intros row. now apply Hf.
  - intros _. now apply emits_only_emit, Hf.
Qed.

Lemma emits_only_prompt_gen_loop (lines : list string) :
  (forall s, P (EvInput s)) ->
  (forall decoded,
      P (EvPrint (interactive_output (stop_token args) decoded))) ->
  emits_only P (prompt_gen_loop tokenizer model d args lines).
Proof.
  intros Hin Hpr. induction lines as [|text rest IH]; simpl.
  - apply emits_only_bind; [apply emits_only_emit, Hin|].
    intros _. apply emits_only_raise.
  - apply emits_only_bind; [apply emits_only_emit, Hin|]. intros _.
    apply emits_only_bind;
      [apply emits_only_model_generate, generation_allowed|].
    intros out. apply emits_only_bind; [apply emits_only_index|].
    intros seq. apply emits_only_bind; [apply emits_only_emit, Hpr|].
    intros _. apply IH.
Qed.

End Emits.

Lemma emits_only_bind_lift (G : Type) (P : event -> Prop) {A B : Type}
      (r : result A) (f : A -> M G B) :
  (forall a, r = Ok a -> emits_only P (f a)) ->
  emits_only P (bind (lift r) f).
Proof.
  intros H w. unfold bind, lift. destruct r as [a|e].
  - now apply H.
  - exists []. simpl. now rewrite app_nil_r.
Qed.

(** The steps of [main] around the driver, for a property of events that
    the two loads satisfy. *)
Lemma emits_only_main (G : Type) (P : event -> Prop) (env : Env G)
      (args : Args) :
  (forall cls path, P (EvLoadTokenizer cls path)) ->
  (forall cls path, P (EvLoadModel cls path)) ->
  (forall mc tc tokenizer model,
      dict_get MODEL_CLASSES (PyStr.lower (model_type args)) = Some (mc, tc) ->
      model_from_pretrained env mc (model_name_or_path args) = Ok model ->
      let d := if cuda_is_available env && negb (no_cuda args)
               then Cuda else Cpu in
      let args' := with_length
                     (with_model_type args (PyStr.lower (model_type args)))
                     (adjust_length_to_model
                        (length args) (max_position_embeddings model)) in
      emits_only P (if no_file args
                    then prompt_gen env tokenizer model d args'
                    else file_gen env tokenizer model d args')) ->
  emits_only P (main env args).
Proof.
  intros Htok Hmod Hdrv. unfold main. cbv zeta.
  apply emits_only_bind; [apply emits_only_set_seed|]. intros _.
  change (model_type (with_model_type args (PyStr.lower (model_type args))))
    with (PyStr.lower (model_type args)).
  destruct (dict_get MODEL_CLASSES (PyStr.lower (model_type args)))
    as [[mc tc]|] eqn:Hget; [|apply emits_only_raise].
  apply emits_only_bind; [apply emits_only_emit, Htok|]. intros _.
  apply emits_only_bind_lift. intros tokenizer _.
  apply emits_only_bind; [apply emits_only_emit, Hmod|]. intros _.
  apply emits_only_bind_lift. intros model Hload.
  exact (Hdrv mc tc tokenizer model eq_refl Hload).
Qed.

(** X11: every generation call of a run of [main] is made with the
    resolved length as [max_length], that is the requested length adjusted
    to the capacity of the model that was loaded, with sampling switched on,
    and with the temperature, top-k, top-p and repetition penalty of the
    command line. *)
Theorem main_generates_with_resolved_length
        (G : Type) (env : Env G) (args : Args) (w : world G) :
  exists tr,
    trace (snd (main env args w)) = (trace w ++ tr)%list
    /\ Forall
         (fun e =>
            forall cfg, config_of e = Some cfg ->
              exists mc tc model,
                dict_get MODEL_CLASSES (PyStr.lower (model_type args))
                = Some (mc, tc)
                /\ model_from_pretrained env mc (model_name_or_path args)
                   = Ok model
                /\ cfg = {| max_length :=
                              adjust_length_to_model
                                (length args) (max_position_embeddings model);
                            gen_temperature := temperature args;
                            top_k := k args;
                            top_p := p args;
                            gen_repetition_penalty := repetition_penalty args;
                            do_sample := true |}) tr.
Proof.
  apply emits_only_main; try (intros; discriminate).
  intros mc tc tokenizer model Hget Hload d args'.
  assert (Hgen : forall e_p out cfg,
             config_of (EvGenerate e_p (gen_config args') out) = Some cfg ->
             exists mc0 tc0 model0,
               dict_get MODEL_CLASSES (PyStr.lower (model_type args))
               = Some (mc0, tc0)
               /\ model_from_pretrained env mc0 (model_name_or_path args)
                  = Ok model0
               /\ cfg = {| max_length :=
                             adjust_length_to_model
                               (length args) (max_position_embeddings model0);
                           gen_temperature := temperature args;
                           top_k := k args;
                           top_p := p args;
                           gen_repetition_penalty := repetition_penalty args;
                           do_sample := true |}).
  { intros e_p out cfg Hcfg. injection Hcfg as <-.
    exists mc, tc, model. repeat split; assumption. }
  destruct (no_file args).
  - unfold prompt_gen. apply emits_only_prompt_gen_loop;
      [exact Hgen | |]; intros; discriminate.
  - apply emits_only_file_gen; [exact Hgen|].
    intros e He cfg Hcfg. destruct e; discriminate.
Qed.

(** X12: in interactive mode a run of [main] never touches the input table
    or the output file, and in batch mode it never prompts the operator nor
    prints a line. *)
Theorem main_keeps_to_its_driver
        (G : Type) (env : Env G) (args : Args) (w : world G) :
  exists tr,
    trace (snd (main env args w)) = (trace w ++ tr)%list
    /\ Forall (fun e => if no_file args
                        then is_file_event e = false
                        else is_console_event e = false) tr.
Proof.
  apply emits_only_main; try (intros; now destruct (no_file args)).
  intros mc tc tokenizer model _ _ d args'.
  destruct (no_file args).
  - unfold prompt_gen. apply emits_only_prompt_gen_loop; reflexivity.
  - apply emits_only_file_gen; [reflexivity|].
    intros e He. destruct e; try discriminate; reflexivity.
Qed.

(** X13: every line the interactive driver prints is free of line feeds,
    so each result takes one line of the console. *)
Theorem prompt_gen_prints_single_lines
        (G : Type) (env : Env G) (tokenizer : Tokenizer) (model : Model G)
        (d : device) (args : Args) (w : world G) :
  exists tr,
    trace (snd (prompt_gen env tokenizer model d args w))
    = (trace w ++ tr)%list
    /\ Forall (fun e => forall line,
                   e = EvPrint line ->
                   has_char (PyStr.chr 10) line = false) tr.
Proof.
  unfold prompt_gen. apply emits_only_prompt_gen_loop;
    try (intros; discriminate).
  intros decoded line Hline. injection Hline as <-.
  apply postprocess_no_line_feed.
Qed.

(* ================================================================== *)
(** * Further properties: how the drivers end *)
(* ================================================================== *)

Section Endings.

Variable G : Type.
Variable tokenizer : Tokenizer.
Variable model : Model G.
Variable d : device.
Variable args : Args.



Lemma prompt_events_printed (lines : list string)
      (items : list (tensor * list Z)) :
  List.length items = List.length lines ->
  flat_map (fun e => match e with EvPrint s => [s] | _ => [] end)
           (flat_map (prompt_events tokenizer args) (combine lines items)
            ++ [EvInput "Prompt Text>>"])
  = map (fun seq => interactive_output (stop_token args)
                                       (decode tokenizer seq))
        (map snd items).
Proof.
  revert items; induction lines as [|t ts IH]; intros items Hi.
  - destruct items; [reflexivity | discriminate].
  - destruct items as [|[out seq] items]; [discriminate|].
    simpl in *. rewrite IH by lia. reflexivity.
Qed.


End Endings.


(** X15: with a model that returns a sequence for every prompt, the
    interactive driver answers each line the operator typed, in order: for
    each line it asks for input, calls the model on encode(line), and prints
    the post-processed decoding of the first sequence the model returned for
    that call.  So it prints exactly one line per line typed, and then ends
    with [EOFError] at the next request for input. *)
Theorem prompt_gen_answers_each_line
        (G : Type) (env : Env G) (tokenizer : Tokenizer) (model : Model G)
        (d : device) (args : Args) (w : world G) :
  returns_a_sequence model ->
  exists (items : list (tensor * list Z)) (w' : world G),
    prompt_gen env tokenizer model d args w = (Raise EOFError, w')
    /\ List.length items = List.length (operator_lines env)
    /\ Forall first_row items
    /\ trace w'
       = (trace w
          ++ flat_map (prompt_events tokenizer args)
                      (combine (operator_lines env) items)
          ++ [EvInput "Prompt Text>>"])%list
    /\ printed w'
       = (printed w
          ++ map (fun item : tensor * list Z =>
                    interactive_output (stop_token args)
                                       (decode tokenizer (snd item)))
                 items)%list.
Proof.
  intros Hne.
  destruct (prompt_gen_loop_trace G tokenizer model d args Hne
                                  (operator_lines env) w)
    as (items & w' & Hn & Hall & Hrun & Htr).
  exists items, w'.
  split; [exact Hrun|]. split; [exact Hn|]. split; [exact Hall|].
  split; [exact Htr|].
  rewrite (printed_app G w w' _ Htr). f_equal.
  rewrite (prompt_events_printed tokenizer args _ _ Hn).
  now rewrite map_map.
Qed.

Lemma prompt_gen_answers_each_line_witness :
  exists (items : list (tensor * list Z)) (w' : world Z),
    prompt_gen toy_env char_tokenizer toy_model Cpu xlnet_args (toy_world 7)
    = (Raise EOFError, w')
    /\ List.length items = List.length (operator_lines toy_env)
    /\ Forall first_row items
    /\ trace w'
       = (trace (toy_world 7)
          ++ flat_map (prompt_events char_tokenizer xlnet_args)
                      (combine (operator_lines toy_env) items)
          ++ [EvInput "Prompt Text>>"])%list
    /\ printed w'
       = (printed (toy_world 7)
          ++ map (fun item : tensor * list Z =>
                    interactive_output (stop_token xlnet_args)
                                       (decode char_tokenizer (snd item)))
                 items)%list.
Proof.
  apply (prompt_gen_answers_each_line
           Z toy_env char_tokenizer toy_model Cpu xlnet_args (toy_world 7)).
  exact toy_model_returns_a_sequence.
Defined.

(** X16: when the input table lacks the [title] or the [content] column,
    the batch driver raises [KeyError] right after reading the table: the
    output file is not opened, so a file already there is left as it was,
    and nothing is generated. *)
Theorem file_gen_missing_column
        (G : Type) (env : Env G) (tokenizer : Tokenizer) (model : Model G)
        (d : device) (args : Args) (data : DataFrame) (w : world G) :
  read_csv env (prompt_file args) = Ok data ->
  dict_get data "title" = None \/ dict_get data "content" = None ->
  exists w',
    file_gen env tokenizer model d args w = (Raise KeyError, w')
    /\ trace w' = (trace w ++ [EvReadCsv (prompt_file args)])%list.
Proof.
  intros Hread Hmiss. unfold file_gen.
  unfold bind at 1. unfold emit at 1.
  unfold bind at 1. unfold lift at 1. rewrite Hread.
  unfold bind at 1. unfold column at 1.
  destruct (dict_get data "title") as [titles|].
  - destruct Hmiss as [Hmiss|Hmiss]; [discriminate|].
    unfold ret at 1. unfold bind at 1. unfold column at 1. rewrite Hmiss.
    eexists. split; reflexivity.
  - eexists. split; reflexivity.
Qed.

Lemma file_gen_missing_column_witness :
  exists w',
    file_gen (toy_env_with (Ok [("title", [CellStr "The sky"])])
                           (Ok char_tokenizer) (Ok toy_model) [])
             char_tokenizer toy_model Cpu toy_args (toy_world 7)
    = (Raise KeyError, w')
    /\ trace w'
       = (trace (toy_world 7) ++ [EvReadCsv (prompt_file toy_args)])%list.
Proof.
  apply (file_gen_missing_column
           Z (toy_env_with (Ok [("title", [CellStr "The sky"])])
                           (Ok char_tokenizer) (Ok toy_model) [])
           char_tokenizer toy_model Cpu toy_args [("title", [CellStr "The sky"])]
           (toy_world 7)).
  - reflexivity.
  - right. reflexivity.
Defined.



(** The run of the witness above is one that stops early: the second row
    finds the model without an answer, and only the header and the first row
    are written. *)
Example tiring_model_stops_at_second_row :
  fst (file_gen (toy_env_with (Ok toy_table) (Ok char_tokenizer)
                              (Ok tiring_model) [])
                char_tokenizer tiring_model Cpu toy_args (toy_world 42))
  = Raise IndexError
  /\ written (snd (file_gen (toy_env_with (Ok toy_table) (Ok char_tokenizer)
                                          (Ok tiring_model) [])
                            char_tokenizer tiring_model Cpu toy_args
                            (toy_world 42)))
     = [HEADER;
        format_row "The sky<c-begin>" "The sky"
                   "was blue and clear for miles." "blue"].
Proof. split; vm_compute; reflexivity. Qed.

(* ================================================================== *)
(** * Further properties: startup *)
(* ================================================================== *)

(** X18: when the codec fails to load, [main] raises the load error with
    the model never loaded; when the codec loads and the model fails to
    load, [main] raises that error.  In both cases no file has been touched
    and nothing generated: the loads are the only events. *)
Theorem load_failure_stops_startup
        (G : Type) (env : Env G) (args : Args) (w : world G)
        (mc : model_class) (tc : tokenizer_class) :
  dict_get MODEL_CLASSES (PyStr.lower (model_type args)) = Some (mc, tc) ->
  (forall e,
      tokenizer_from_pretrained env tc (model_name_or_path args) = Raise e ->
      exists w',
        main env args w = (Raise e, w')
        /\ trace w'
           = (trace w ++ [EvLoadTokenizer tc (model_name_or_path args)])%list)
  /\ (forall tokenizer e,
         tokenizer_from_pretrained env tc (model_name_or_path args)
         = Ok tokenizer ->
         model_from_pretrained env mc (model_name_or_path args) = Raise e ->
         exists w',
           main env args w = (Raise e, w')
           /\ trace w'
              = (trace w
                 ++ [EvLoadTokenizer tc (model_name_or_path args);
                     EvLoadModel mc (model_name_or_path args)])%list).
Proof.
  intros Hget. split.
  - intros e Htok. unfold main. cbv zeta. rewrite bind_set_seed.
    change (model_type
              (with_model_type args (PyStr.lower (model_type args))))
      with (PyStr.lower (model_type args)).
    rewrite Hget.
    change (model_name_or_path
              (with_model_type args (PyStr.lower (model_type args))))
      with (model_name_or_path args).
    unfold bind at 1. unfold emit at 1.
    unfold bind at 1. unfold lift at 1. rewrite Htok.
    eexists. split; reflexivity.
  - intros tokenizer e Htok Hmod. unfold main. cbv zeta.
    rewrite bind_set_seed.
    change (model_type
              (with_model_type args (PyStr.lower (model_type args))))
      with (PyStr.lower (model_type args)).
    rewrite Hget.
    change (model_name_or_path
              (with_model_type args (PyStr.lower (model_type args))))
      with (model_name_or_path args).
    unfold bind at 1. unfold emit at 1.
    unfold bind at 1. unfold lift at 1. rewrite Htok.
    unfold bind at 1. unfold emit at 1.
    unfold bind at 1. unfold lift at 1. rewrite Hmod.
    eexists. split; [reflexivity|]. simpl. now rewrite <- app_assoc.
Qed.

Lemma load_failure_stops_startup_witness :
  (forall e,
      tokenizer_from_pretrained
        (toy_env_with (Ok toy_table) (Ok char_tokenizer) (Raise OSError) [])
        GPT2Tokenizer (model_name_or_path toy_args) = Raise e ->
      exists w',
        main (toy_env_with (Ok toy_table) (Ok char_tokenizer)
                           (Raise OSError) [])
             toy_args (toy_world 7) = (Raise e, w')
        /\ trace w'
           = (trace (toy_world 7)
              ++ [EvLoadTokenizer GPT2Tokenizer
                                  (model_name_or_path toy_args)])%list)
  /\ (forall tokenizer e,
         tokenizer_from_pretrained
           (toy_env_with (Ok toy_table) (Ok char_tokenizer)
                         (Raise OSError) [])
           GPT2Tokenizer (model_name_or_path toy_args) = Ok tokenizer ->
         model_from_pretrained
           (toy_env_with (Ok toy_table) (Ok char_tokenizer)
                         (Raise OSError) [])
           GPT2LMHeadModel (model_name_or_path toy_args) = Raise e ->
         exists w',
           main (toy_env_with (Ok toy_table) (Ok char_tokenizer)
                              (Raise OSError) [])
                toy_args (toy_world 7) = (Raise e, w')
           /\ trace w'
              = (trace (toy_world 7)
                 ++ [EvLoadTokenizer GPT2Tokenizer
                                     (model_name_or_path toy_args);
                     EvLoadModel GPT2LMHeadModel
                                 (model_name_or_path toy_args)])%list).
Proof.
  apply (load_failure_stops_startup
           Z (toy_env_with (Ok toy_table) (Ok char_tokenizer)
                           (Raise OSError) [])
           toy_args (toy_world 7) GPT2LMHeadModel GPT2Tokenizer).
  reflexivity.
Defined.

Lemma lower_char_idempotent (c : ascii) :
  PyStr.lower_char (PyStr.lower_char c) = PyStr.lower_char c.
Proof. destruct c as [[] [] [] [] [] [] [] []]; reflexivity. Qed.

Lemma lower_idempotent (s : string) :
  PyStr.lower (PyStr.lower s) = PyStr.lower s.
Proof.
  induction s as [|c s IH]; [reflexivity|].
  simpl. now rewrite lower_char_idempotent, IH.
Qed.

(** X19: the family selector is matched without regard to case: a run of
    [main] with a selector and the run with its lower-cased form are the
    same run. *)
Theorem main_selector_case_insensitive
        (G : Type) (env : Env G) (args : Args) (selector : string)
        (w : world G) :
  main env (with_model_type args selector) w
  = main env (with_model_type args (PyStr.lower selector)) w.
Proof.
  unfold main. cbv zeta.
  change (model_type (with_model_type args selector)) with selector.
  change (model_type (with_model_type args (PyStr.lower selector)))
    with (PyStr.lower selector).
  rewrite lower_idempotent. reflexivity.
Qed.



(* ================================================================== *)
(** * Further properties: the preprocessing of the CTRL and XLM families *)
(* ================================================================== *)

Lemma any_first_is_spec (encoded_prompt values : list Z) :
  any_first_is encoded_prompt values
  = match encoded_prompt, values with
    | _, [] => Ok false
    | [], _ :: _ => Raise IndexError
    | first :: _, _ :: _ => Ok (existsb (Z.eqb first) values)
    end.
Proof.
  destruct encoded_prompt as [|first rest].
  - destruct values; reflexivity.
  - induction values as [|x values IH]; [reflexivity|].
    simpl. destruct (first =? x) eqn:E; [reflexivity|].
    rewrite IH. destruct values; reflexivity.
Qed.

Lemma existsb_eqb_In (first : Z) (values : list Z) :
  existsb (Z.eqb first) values = true <-> In first values.
Proof.
  rewrite existsb_exists. split.
  - intros (x & Hin & Heq). apply Z.eqb_eq in Heq. now subst.
  - intros Hin. exists first. split; [exact Hin | apply Z.eqb_refl].
Qed.

(** X21: [prepare_ctrl_input] hands the prompt back unchanged, or raises
    [IndexError], which it does exactly when the prompt encodes to no token
    and the codec has control codes.  It logs the control-code warning
    exactly when it returns and the first token is not a control code. *)
Theorem prepare_ctrl_input_result
        (args : Args) (tokenizer : Tokenizer)
        (control_codes : list (string * Z)) (prompt_text : string) :
  (snd (prepare_ctrl_input args tokenizer control_codes prompt_text)
   = Raise IndexError
   <-> encode tokenizer prompt_text = [] /\ control_codes <> [])
  /\ (snd (prepare_ctrl_input args tokenizer control_codes prompt_text)
      = Ok prompt_text
      \/ snd (prepare_ctrl_input args tokenizer control_codes prompt_text)
         = Raise IndexError)
  /\ (In CTRL_CODE_WARNING
         (fst (prepare_ctrl_input args tokenizer control_codes prompt_text))
      <-> control_codes = []
          \/ exists first rest,
               encode tokenizer prompt_text = first :: rest
               /\ ~ In first (map snd control_codes)).
Proof.
  unfold prepare_ctrl_input. rewrite any_first_is_spec.
  set (logged := if PrimFloat.ltb _ (temperature args)
                 then [CTRL_TEMPERATURE_HINT] else []).
  assert (Hlog : ~ In CTRL_CODE_WARNING logged).
  { subst logged. destruct (PrimFloat.ltb _ _); simpl; [|tauto].
    intros [H|[]]. discriminate H. }
  destruct control_codes as [|[name code] codes].
  - simpl. destruct (encode tokenizer prompt_text); simpl;
      (split; [split; [discriminate | intros [_ H]; now destruct H]|]);
      (split; [now left|]);
      (split; [now left | intros _; apply in_or_app; right; now left]).
  - destruct (encode tokenizer prompt_text) as [|first rest] eqn:Henc.
    + simpl. split; [split; [intros _; split; [reflexivity|discriminate]
                            | reflexivity]|].
      split; [now right|]. split; [intros H; now apply Hlog in H|].
      intros [H|(f & r & H & _)]; discriminate.
    + cbv beta iota.
      destruct (existsb (Z.eqb first) (map snd ((name, code) :: codes)))
        eqn:Hany; cbv beta iota; cbn [fst snd].
      * split; [split; [discriminate | intros [H _]; discriminate]|].
        split; [now left|]. split; [intros H; now apply Hlog in H|].
        intros [H|(f & r & H & Hnot)]; [discriminate|].
        injection H as <- <-. apply existsb_eqb_In in Hany. contradiction.
      * split; [split; [discriminate | intros [H _]; discriminate]|].
        split; [now left|].
        split; [|intros _; apply in_or_app; right; now left].
        intros _. right. exists first, rest. split; [reflexivity|].
        intros Hin. apply existsb_eqb_In in Hin. congruence.
Qed.

Lemma existsb_string_In (line : string) (available : list string) :
  existsb (String.eqb line) available = true <-> In line available.
Proof.
  rewrite existsb_exists. split.
  - intros (x & Hin & Heq). apply String.eqb_eq in Heq. now subst.
  - intros Hin. exists line. split; [exact Hin | apply String.eqb_refl].
Qed.

Lemma ask_language_spec (available lines : list string) :
  (fst (ask_language available lines) <= List.length lines)%nat
  /\ (snd (ask_language available lines) = Raise EOFError
      \/ exists language,
           snd (ask_language available lines) = Ok language
           /\ In language available)
  /\ (snd (ask_language available lines) = Raise EOFError
      <-> forall line, In line lines -> ~ In line available).
Proof.
  induction lines as [|line rest IH].
  - simpl. split; [lia|]. split; [now left|].
    split; [intros _ line [] | reflexivity].
  - simpl. destruct (existsb (String.eqb line) available) eqn:E.
    + apply existsb_string_In in E. simpl. split; [lia|].
      split; [right; now exists line|].
      split; [discriminate|]. intros H. exfalso.
      apply (H line); [now left | exact E].
    + destruct (ask_language available rest) as [n r]. simpl in *.
      destruct IH as (Hn & Hr & Heof). split; [lia|]. split; [exact Hr|].
      split.
      * intros H line0 [<-|Hin].
        -- intros Hav. apply existsb_string_In in Hav. congruence.
        -- now apply Heof.
      * intros H. apply Heof. intros line0 Hin. apply H. now right.
Qed.

(** X22: [prepare_xlm_input] hands the prompt back unchanged, or raises
    [EOFError]; it never reads more lines than the operator typed.  It
    raises exactly when the model uses language embeddings, the language of
    the command line is not one the model knows, and no line the operator
    types names one. *)
Theorem prepare_xlm_input_result
        (args : Args) (config : XLMConfig) (lines : list string)
        (prompt_text : string) :
  (snd (prepare_xlm_input args config lines prompt_text) = Ok prompt_text
   \/ snd (prepare_xlm_input args config lines prompt_text) = Raise EOFError)
  /\ (fst (prepare_xlm_input args config lines prompt_text)
      <= List.length lines)%nat
  /\ (snd (prepare_xlm_input args config lines prompt_text) = Raise EOFError
      <-> exists table,
            lang2id config = Some table
            /\ use_lang_emb config = Some true
            /\ ~ In (xlm_language args) (dict_keys table)
            /\ forall line, In line lines -> ~ In line (dict_keys table)).
Proof.
  unfold prepare_xlm_input.
  destruct (lang2id config) as [table|] eqn:Htable.
  - destruct (use_lang_emb config) as [[|]|] eqn:Huse.
    + destruct (existsb (String.eqb (xlm_language args)) (dict_keys table))
        eqn:Hknown.
      * apply existsb_string_In in Hknown. simpl.
        split; [now left|]. split; [lia|]. split; [discriminate|].
        intros (t & Ht & _ & Hnot & _). injection Ht as <-. contradiction.
      * destruct (ask_language_spec (dict_keys table) lines)
          as (Hn & Hr & Heof).
        destruct (ask_language (dict_keys table) lines) as [n [language|e]];
          simpl in *.
        -- split; [now left|]. split; [exact Hn|]. split; [discriminate|].
           intros (t & Ht & _ & _ & Hall). injection Ht as <-.
           apply Heof in Hall. discriminate.
        -- destruct Hr as [Hr|(l & Hl & _)]; [|discriminate].
           injection Hr as ->.
           split; [now right|]. split; [exact Hn|]. split; [|reflexivity].
           intros _. exists table. split; [reflexivity|].
           split; [reflexivity|]. split.
           ++ intros Hin. apply existsb_string_In in Hin. congruence.
           ++ now apply Heof.
    + simpl. split; [now left|]. split; [lia|]. split; [discriminate|].
      intros (t & _ & H & _). discriminate.
    + simpl. split; [now left|]. split; [lia|]. split; [discriminate|].
      intros (t & _ & H & _). discriminate.
  - simpl. split; [now left|]. split; [lia|]. split; [discriminate|].
    intros (t & H & _). discriminate.
Qed.

(* ================================================================== *)
(** * Further properties: the text between the marker and the stop token *)
(* ================================================================== *)

Lemma app_prefix_split (a b x y : string) :
  a ++ x = b ++ y ->
  (String.length a <= String.length b)%nat ->
  exists m, b = a ++ m /\ x = m ++ y.
Proof.
  revert b; induction a as [|c a IH]; intros b H Hlen.
  - exists b. now split.
  - destruct b as [|c' b]; [simpl in Hlen; lia|].
    simpl in H. injection H as -> H. simpl in Hlen.
    destruct (IH b H ltac:(lia)) as (m & -> & ->).
    now exists m.
Qed.

Lemma slice_middle (a b c : string) :
  PyStr.slice (a ++ b ++ c)
              (Some (Z.of_nat (String.length a)))
              (Some (Z.of_nat (String.length a + String.length b)))
  = b.
Proof.
  unfold PyStr.slice, PyStr.clamp_index. rewrite !append_length.
  destruct (Z.ltb_spec (Z.of_nat (String.length a)) 0); [lia|].
  destruct (Z.ltb_spec
              (Z.of_nat (String.length a + String.length b)) 0); [lia|].
  replace (Z.to_nat (_ - _)) with (String.length b) by lia.
  replace (Z.to_nat (Z.min _ _)) with (String.length a) by lia.
  rewrite substring_skip. apply substring_prefix.
Qed.

(** X23: in the batch driver, when the stop token first occurs at or after
    the first continuation-begin marker, the slice is exactly the stretch of
    the decoded text from the marker's position up to the stop token: the
    decoded text is what precedes the marker, then the slice, then the stop
    token, then a rest. *)
Theorem truncate_batch_between_marker_and_stop (stop text : string) :
  stop <> "" ->
  PyStr.find text C_BEGIN <> -1 ->
  PyStr.find text C_BEGIN <= PyStr.find text stop ->
  exists pre rest,
    text = pre ++ truncate_batch (Some stop) text ++ stop ++ rest
    /\ Z.of_nat (String.length pre) = PyStr.find text C_BEGIN
    /\ Z.of_nat (String.length pre
                 + String.length (truncate_batch (Some stop) text))
       = PyStr.find text stop.
Proof.
  intros Hne Hm Hle.
  destruct (find_split text C_BEGIN Hm) as (p1 & r1 & Hs1 & Hi).
  assert (Hstop : PyStr.find text stop <> -1) by lia.
  destruct (find_split text stop Hstop) as (p2 & r2 & Hs2 & Hj).
  assert (Hlen : (String.length p1 <= String.length p2)%nat) by lia.
  assert (Heq : p1 ++ (C_BEGIN ++ r1) = p2 ++ (stop ++ r2)) by congruence.
  destruct (app_prefix_split _ _ _ _ Heq Hlen) as (mid & Hp2 & _).
  assert (Htext : text = p1 ++ mid ++ stop ++ r2).
  { rewrite Hs2, Hp2. clear.
    induction p1 as [|c p1 IH]; simpl; [reflexivity | now rewrite IH]. }
  assert (Hcut : truncate_batch (Some stop) text = mid).
  { unfold truncate_batch. rewrite (stop_index_found _ _ Hne), Hi, Hj.
    rewrite Hp2, append_length, Htext. apply slice_middle. }
  exists p1, r2. rewrite Hcut.
  split; [exact Htext|]. split; [now rewrite Hi|].
  rewrite Hj, Hp2, append_length. reflexivity.
Qed.

Lemma truncate_batch_between_marker_and_stop_witness :
  exists pre rest,
    "The sky<c-begin> is blue. And" =
    pre ++ truncate_batch (Some ".") "The sky<c-begin> is blue. And"
        ++ "." ++ rest
    /\ Z.of_nat (String.length pre)
       = PyStr.find "The sky<c-begin> is blue. And" C_BEGIN
    /\ Z.of_nat (String.length pre
                 + String.length
                     (truncate_batch (Some ".")
                                     "The sky<c-begin> is blue. And"))
       = PyStr.find "The sky<c-begin> is blue. And" ".".
Proof.
  apply (truncate_batch_between_marker_and_stop
           "." "The sky<c-begin> is blue. And").
  - discriminate.
  - vm_compute. discriminate.
  - vm_compute. discriminate.
Defined.

(* ================================================================== *)
(** * Further properties: cells that are not text *)
(* ================================================================== *)

Lemma comprehension_cons_ok {A B : Type} (f : A -> result B) (x : A)
      (xs : list A) (y : B) :
  f x = Ok y ->
  comprehension f (x :: xs)
  = match comprehension f xs with
    | Raise e => Raise e
    | Ok ys => Ok (y :: ys)
    end.
Proof. intros H. simpl. now rewrite H. Qed.

Lemma comprehension_cons_raise {A B : Type} (f : A -> result B) (x : A)
      (xs : list A) (e : exn) :
  f x = Raise e -> comprehension f (x :: xs) = Raise e.
Proof. intros H. simpl. now rewrite H. Qed.

Lemma ref_content_cells_non_text (ref_list : list cell) :
  forallb is_text ref_list = false ->
  ref_content_cells ref_list = Raise AttributeError.
Proof.
  unfold ref_content_cells.
  induction ref_list as [|c cs IH]; intros H; [discriminate|].
  destruct c as [s|n|x];
    try (apply comprehension_cons_raise; reflexivity).
  erewrite comprehension_cons_ok by reflexivity.
  simpl in H. now rewrite (IH H).
Qed.

Lemma ref_content_cells_all_text (ref_list : list cell) :
  forallb is_text ref_list = true ->
  exists ref_content, ref_content_cells ref_list = Ok ref_content.
Proof.
  unfold ref_content_cells.
  induction ref_list as [|c cs IH]; intros H; [now exists []|].
  destruct c as [s|n|x]; try discriminate.
  simpl in H. destruct (IH H) as [r Hr].
  erewrite comprehension_cons_ok by reflexivity. rewrite Hr.
  eexists. reflexivity.
Qed.

Lemma encode_prompt_cells_non_text (tokenizer : Tokenizer)
      (prompt_list : list cell) :
  forallb is_text prompt_list = false ->
  encode_prompt_cells tokenizer prompt_list = Raise TypeError.
Proof.
  unfold encode_prompt_cells.
  induction prompt_list as [|c cs IH]; intros H; [discriminate|].
  destruct c as [s|n|x];
    try (apply comprehension_cons_raise; reflexivity).
  erewrite comprehension_cons_ok by reflexivity.
  simpl in H. now rewrite (IH H).
Qed.

(** X24: when the table has both columns but a cell that pandas did not
    read as text (an all-numeric column, an empty cell), the batch driver
    raises before the output file is opened, with the read of the table as
    its only effect: [AttributeError] from [i.strip()] when a content cell
    is not text, and otherwise [TypeError] from [prompt_text + ...] when a
    title cell is not text. *)
Theorem file_gen_non_text_cell
        (G : Type) (env : Env G) (tokenizer : Tokenizer) (model : Model G)
        (d : device) (args : Args) (data : DataFrame)
        (prompt_list ref_list : list cell) (w : world G) :
  read_csv env (prompt_file args) = Ok data ->
  dict_get data "title" = Some prompt_list ->
  dict_get data "content" = Some ref_list ->
  (forallb is_text ref_list = false ->
   exists w',
     file_gen env tokenizer model d args w = (Raise AttributeError, w')
     /\ trace w' = (trace w ++ [EvReadCsv (prompt_file args)])%list)
  /\ (forallb is_text ref_list = true ->
      forallb is_text prompt_list = false ->
      exists w',
        file_gen env tokenizer model d args w = (Raise TypeError, w')
        /\ trace w' = (trace w ++ [EvReadCsv (prompt_file args)])%list).
Proof.
  intros Hread Ht Hc.
  assert (Hstart :
            file_gen env tokenizer model d args w
            = bind (lift (ref_content_cells ref_list))
                   (fun ref_content =>
                      bind (lift (encode_prompt_cells tokenizer prompt_list))
                           (fun encoded_prompt =>
                              bind (emit (EvOpen (output_file args) "w+"))
                                   (fun _ =>
                                      bind (lift (open_file
                                                    env (output_file args)
                                                    "w+"))
                                           (fun _ =>
                                              bind (emit (EvWrite HEADER))
                                                   (fun _ =>
                                                      bind (file_gen_loop
                                                              tokenizer model
                                                              d args
                                                              prompt_list
                                                              ref_content 0
                                                              encoded_prompt)
                                                           (fun _ =>
                                                              emit EvClose))))))
                   (Build_world
                      (np_rng w) (torch_rng w) (cuda_rng w)
                      (trace w ++ [EvReadCsv (prompt_file args)]))).
  { unfold file_gen. unfold bind at 1. unfold emit at 1.
    unfold bind at 1. unfold lift at 1. rewrite Hread.
    unfold bind at 1. unfold column at 1. rewrite Ht. unfold ret at 1.
    unfold bind at 1. unfold column at 1. rewrite Hc. unfold ret at 1.
    reflexivity. }
  rewrite Hstart. split.
  - intros Hbad. rewrite (ref_content_cells_non_text _ Hbad).
    eexists. split; reflexivity.
  - intros Hgood Hbad.
    destruct (ref_content_cells_all_text _ Hgood) as [ref_content Hr].
    rewrite Hr, (encode_prompt_cells_non_text _ _ Hbad).
    eexists. split; reflexivity.
Qed.

Lemma file_gen_non_text_cell_witness :
  (forallb is_text [CellStr "blue"; CellFloat nan] = false ->
   exists w',
     file_gen (toy_env_with
                 (Ok [("title", [CellInt 2020; CellInt 2021]);
                      ("content", [CellStr "blue"; CellFloat nan])])
                 (Ok char_tokenizer) (Ok toy_model) [])
              char_tokenizer toy_model Cpu toy_args (toy_world 7)
     = (Raise AttributeError, w')
     /\ trace w'
        = (trace (toy_world 7) ++ [EvReadCsv (prompt_file toy_args)])%list)
  /\ (forallb is_text [CellStr "blue"; CellFloat nan] = true ->
      forallb is_text [CellInt 2020; CellInt 2021] = false ->
      exists w',
        file_gen (toy_env_with
                    (Ok [("title", [CellInt 2020; CellInt 2021]);
                         ("content", [CellStr "blue"; CellFloat nan])])
                    (Ok char_tokenizer) (Ok toy_model) [])
                 char_tokenizer toy_model Cpu toy_args (toy_world 7)
        = (Raise TypeError, w')
        /\ trace w'
           = (trace (toy_world 7)
              ++ [EvReadCsv (prompt_file toy_args)])%list).
Proof.
  apply (file_gen_non_text_cell
           Z (toy_env_with
                (Ok [("title", [CellInt 2020; CellInt 2021]);
                     ("content", [CellStr "blue"; CellFloat nan])])
                (Ok char_tokenizer) (Ok toy_model) [])
           char_tokenizer toy_model Cpu toy_args
           [("title", [CellInt 2020; CellInt 2021]);
            ("content", [CellStr "blue"; CellFloat nan])]
           [CellInt 2020; CellInt 2021] [CellStr "blue"; CellFloat nan]
           (toy_world 7));
    reflexivity.
Defined.

(** A numeric title column with text contents: the driver stops with
    [TypeError] and has written nothing. *)
Example numeric_titles_raise_type_error :
  fst (file_gen (toy_env_with
                   (Ok [("title", [CellInt 2020]);
                        ("content", [CellStr "blue"])])
                   (Ok char_tokenizer) (Ok toy_model) [])
                char_tokenizer toy_model Cpu toy_args (toy_world 7))
  = Raise TypeError
  /\ written (snd (file_gen (toy_env_with
                               (Ok [("title", [CellInt 2020]);
                                    ("content", [CellStr "blue"])])
                               (Ok char_tokenizer) (Ok toy_model) [])
                            char_tokenizer toy_model Cpu toy_args
                            (toy_world 7)))
     = [].
Proof. split; vm_compute; reflexivity. Qed.
